(** * subfinder: the subtitle-searcher registry and the shooter.cn searcher

    A shallow embedding of [subfinder/subsearcher.py]:

    - the process-wide registry [registered_subsearchers] with
      [register_subsearcher], [get_subsearcher] and the [register] decorator;
    - the capability checks [_check_languages] and [_check_exts] of
      [BaseSubSearcher];
    - [ShooterSubSearcher]: [_compute_video_hash] (four MD5 windows),
      [_gen_subname] and [search_subs] (one HTTP query per language, then the
      fold of the answers into subtitle records).

    Python values are modelled as follows.  [str] is [string] (ASCII text),
    [int] is [Z], [bytes] is [list Byte.byte], a [dict] whose iteration order
    is observed is an association list kept in insertion order, the registry
    (a [dict] that is only looked up) is a [gmap], a [set] is a [gset].
    Effects (the file system, the registry, the HTTP session) are threaded
    through a state-and-exception monad over an explicit [World]. *)

From Stdlib Require Import ZArith List Lia.
From Stdlib.Strings Require Import Ascii String Byte.
From stdpp Require Import base gmap strings list fin_maps.

Local Open Scope string_scope.
Local Open Scope Z_scope.

(* ===================================================================== *)
(** * [hashlib.md5]: RFC 1321 on 32-bit words held in [Z]                 *)
(* ===================================================================== *)

Module hashlib.

Definition mask32 : Z := 0xffffffff.

(** Addition modulo 2^32. *)
Definition add32 (a b : Z) : Z := Z.land (a + b) mask32.

(** Bitwise complement of a 32-bit word. *)
Definition not32 (x : Z) : Z := Z.lxor x mask32.

(** Left rotation of a 32-bit word by [c] bits. *)
Definition rotl32 (x c : Z) : Z :=
  Z.land (Z.lor (Z.shiftl x c) (Z.shiftr x (32 - c))) mask32.

(** [K[i] = floor(2^32 * abs(sin(i + 1)))]. *)
Definition K : list Z :=
  [ 0xd76aa478; 0xe8c7b756; 0x242070db; 0xc1bdceee;
    0xf57c0faf; 0x4787c62a; 0xa8304613; 0xfd469501;
    0x698098d8; 0x8b44f7af; 0xffff5bb1; 0x895cd7be;
    0x6b901122; 0xfd987193; 0xa679438e; 0x49b40821;
    0xf61e2562; 0xc040b340; 0x265e5a51; 0xe9b6c7aa;
    0xd62f105d; 0x02441453; 0xd8a1e681; 0xe7d3fbc8;
    0x21e1cde6; 0xc33707d6; 0xf4d50d87; 0x455a14ed;
    0xa9e3e905; 0xfcefa3f8; 0x676f02d9; 0x8d2a4c8a;
    0xfffa3942; 0x8771f681; 0x6d9d6122; 0xfde5380c;
    0xa4beea44; 0x4bdecfa9; 0xf6bb4b60; 0xbebfbc70;
    0x289b7ec6; 0xeaa127fa; 0xd4ef3085; 0x04881d05;
    0xd9d4d039; 0xe6db99e5; 0x1fa27cf8; 0xc4ac5665;
    0xf4292244; 0x432aff97; 0xab9423a7; 0xfc93a039;
    0x655b59c3; 0x8f0ccc92; 0xffeff47d; 0x85845dd1;
    0x6fa87e4f; 0xfe2ce6e0; 0xa3014314; 0x4e0811a1;
    0xf7537e82; 0xbd3af235; 0x2ad7d2bb; 0xeb86d391 ].

(** Per-round shift amounts. *)
Definition S : list Z :=
  [ 7; 12; 17; 22; 7; 12; 17; 22; 7; 12; 17; 22; 7; 12; 17; 22;
    5; 9; 14; 20; 5; 9; 14; 20; 5; 9; 14; 20; 5; 9; 14; 20;
    4; 11; 16; 23; 4; 11; 16; 23; 4; 11; 16; 23; 4; 11; 16; 23;
    6; 10; 15; 21; 6; 10; 15; 21; 6; 10; 15; 21; 6; 10; 15; 21 ].

Record state := State { sA : Z; sB : Z; sC : Z; sD : Z }.

Definition init : state :=
  State 0x67452301 0xefcdab89 0x98badcfe 0x10325476.

(** The round function of round [i] and the index of the message word it
    reads. *)
Definition mix (i b c d : Z) : Z :=
  if i <? 16 then Z.lor (Z.land b c) (Z.land (not32 b) d)
  else if i <? 32 then Z.lor (Z.land d b) (Z.land (not32 d) c)
  else if i <? 48 then Z.lxor (Z.lxor b c) d
  else Z.lxor c (Z.lor b (not32 d)).

Definition word_index (i : Z) : Z :=
  if i <? 16 then i
  else if i <? 32 then (5 * i + 1) mod 16
  else if i <? 48 then (3 * i + 5) mod 16
  else (7 * i) mod 16.

Definition round (M : list Z) (st : state) (i : Z) : state :=
  let f := add32 (add32 (add32 (mix i (sB st) (sC st) (sD st)) (sA st))
                        (nth (Z.to_nat i) K 0))
                 (nth (Z.to_nat (word_index i)) M 0) in
  State (sD st)
        (add32 (sB st) (rotl32 f (nth (Z.to_nat i) S 0)))
        (sB st)
        (sC st).

(** Four bytes, least significant first, as one word. *)
Definition word_of_bytes (bs : list Z) : Z :=
  fold_right (fun b acc => b + 256 * acc) 0 bs.

Fixpoint words (n : nat) (bs : list Z) : list Z :=
  match n with
  | O => []
  | Datatypes.S n' => word_of_bytes (firstn 4 bs) :: words n' (skipn 4 bs)
  end.

Definition compress (st : state) (block : list Z) : state :=
  let M := words 16 block in
  let st' := fold_left (round M) (seqZ 0 64) st in
  State (add32 (sA st) (sA st')) (add32 (sB st) (sB st'))
        (add32 (sC st) (sC st')) (add32 (sD st) (sD st')).

(** [n] bytes of [x], least significant first. *)
Fixpoint le_bytes (n : nat) (x : Z) : list Z :=
  match n with
  | O => []
  | Datatypes.S n' => Z.land x 255 :: le_bytes n' (Z.shiftr x 8)
  end.

(** The message, one [0x80] byte, zeros up to 56 modulo 64, and the bit
    length on 64 bits. *)
Definition pad (msg : list Z) : list Z :=
  let len := Z.of_nat (length msg) in
  msg ++ [128] ++ repeat 0 (Z.to_nat ((55 - len) mod 64))
      ++ le_bytes 8 (Z.land (8 * len) 0xffffffffffffffff).

Fixpoint blocks (n : nat) (st : state) (bs : list Z) : state :=
  match n with
  | O => st
  | Datatypes.S n' => blocks n' (compress st (firstn 64 bs)) (skipn 64 bs)
  end.

Definition digest_state (msg : list Z) : state :=
  let p := pad msg in
  blocks (Nat.div (length p) 64) init p.

Definition hexchar (n : Z) : ascii :=
  match Z.land n 15 with
  | 0 => "0" | 1 => "1" | 2 => "2" | 3 => "3"
  | 4 => "4" | 5 => "5" | 6 => "6" | 7 => "7"
  | 8 => "8" | 9 => "9" | 10 => "a" | 11 => "b"
  | 12 => "c" | 13 => "d" | 14 => "e" | _ => "f"
  end%char.

Definition hex_of_byte (b : Z) : string :=
  String (hexchar (Z.shiftr b 4)) (String (hexchar b) EmptyString).

Definition hex_of_word (w : Z) : string :=
  String.concat "" (map hex_of_byte (le_bytes 4 w)).

(** [hashlib.md5(data).hexdigest()]. *)
Definition md5_hexdigest (data : list Byte.byte) : string :=
  let st := digest_state (map (fun b => Z.of_N (Byte.to_N b)) data) in
  hex_of_word (sA st) +:+ hex_of_word (sB st)
    +:+ hex_of_word (sC st) +:+ hex_of_word (sD st).

End hashlib.

Definition ascii_bytes (s : string) : list Byte.byte :=
  map byte_of_ascii (list_ascii_of_string s).

(* ===================================================================== *)
(** * [str] methods and [os.path] (posixpath)                             *)
(* ===================================================================== *)

(** [s.lower()] on ASCII text. *)
Definition lower_char (c : ascii) : ascii :=
  let n := N_of_ascii c in
  if ((65 <=? n) && (n <=? 90))%N then ascii_of_N (n + 32) else c.

Fixpoint lower (s : string) : string :=
  match s with
  | EmptyString => EmptyString
  | String c r => String (lower_char c) (lower r)
  end.

(** [sep.join(parts)]. *)
Definition str_join (sep : string) (parts : list string) : string :=
  String.concat sep parts.

Module posixpath.

Definition sep : ascii := "/"%char.
Definition extsep : ascii := "."%char.

(** [p.rfind(c)] on the characters of [p]: the index of the last [c], or
    [-1]. *)
Fixpoint rfind (c : ascii) (p : list ascii) : Z :=
  match p with
  | [] => -1
  | x :: r =>
      let i := rfind c r in
      if 0 <=? i then i + 1 else if Ascii.eqb x c then 0 else -1
  end.

(** [p.rstrip(c)]. *)
Fixpoint rstrip (c : ascii) (p : list ascii) : list ascii :=
  match p with
  | [] => []
  | x :: r =>
      match rstrip c r with
      | [] => if Ascii.eqb x c then [] else [x]
      | r' => x :: r'
      end
  end.

(** [head != sep * len(head)] is [negb (all_sep head)]. *)
Definition all_sep (p : list ascii) : bool :=
  forallb (fun x => Ascii.eqb x sep) p.

Definition split_chars (p : list ascii) : list ascii * list ascii :=
  let i := Z.to_nat (rfind sep p + 1) in
  let head := take i p in
  let tail := drop i p in
  let head :=
    if negb (Nat.eqb (length head) 0) && negb (all_sep head)
    then rstrip sep head else head in
  (head, tail).

(** [os.path.split(p)]. *)
Definition split (p : string) : string * string :=
  let '(head, tail) := split_chars (list_ascii_of_string p) in
  (string_of_list_ascii head, string_of_list_ascii tail).

(** [os.path.basename(p)]. *)
Definition basename (p : string) : string :=
  let l := list_ascii_of_string p in
  string_of_list_ascii (drop (Z.to_nat (rfind sep l + 1)) l).

Definition splitext_chars (p : list ascii) : list ascii * list ascii :=
  let sepIndex := rfind sep p in
  let dotIndex := rfind extsep p in
  if (sepIndex <? dotIndex)
     && existsb (fun x => negb (Ascii.eqb x extsep))
          (take (Z.to_nat (dotIndex - (sepIndex + 1)))
                (drop (Z.to_nat (sepIndex + 1)) p))
  then (take (Z.to_nat dotIndex) p, drop (Z.to_nat dotIndex) p)
  else (p, []).

(** [os.path.splitext(p)]: the extension starts at the last dot of the last
    component, unless that component has only leading dots before it. *)
Definition splitext (p : string) : string * string :=
  let '(root, ext) := splitext_chars (list_ascii_of_string p) in
  (string_of_list_ascii root, string_of_list_ascii ext).

Definition startswith_sep (p : list ascii) : bool :=
  match p with x :: _ => Ascii.eqb x sep | [] => false end.

Definition endswith_sep (p : list ascii) : bool :=
  match last p with Some x => Ascii.eqb x sep | None => false end.

Definition join_chars (a b : list ascii) : list ascii :=
  if startswith_sep b then b
  else if Nat.eqb (length a) 0 || endswith_sep a then a ++ b
  else a ++ sep :: b.

(** [os.path.join(a, b)]. *)
Definition join (a b : string) : string :=
  string_of_list_ascii
    (join_chars (list_ascii_of_string a) (list_ascii_of_string b)).

End posixpath.

(* ===================================================================== *)
(** * Values, exceptions and the world                                    *)
(* ===================================================================== *)

(** The exceptions the module raises or lets through, each with its
    message ([str(e)]).  [LanguageError], [ExtError], [InvalidFileError] and
    [SearchingSubinfoError] are the classes of [subfinder.exceptions];
    [TransportError] stands for whatever [requests] or the JSON decoder
    raises. *)
Inductive exn :=
| ValueError (msg : string)
| IndexError (msg : string)
| OSError (msg : string)
| TransportError (msg : string)
| LanguageError (msg : string)
| ExtError (msg : string)
| InvalidFileError (msg : string)
| SearchingSubinfoError (msg : string).

(** [str(e)]. *)
Definition exn_str (e : exn) : string :=
  match e with
  | ValueError m | IndexError m | OSError m | TransportError m
  | LanguageError m | ExtError m | InvalidFileError m
  | SearchingSubinfoError m => m
  end.

Inductive outcome (A : Type) :=
| Ok (a : A)
| Raise (e : exn).
Arguments Ok {A} a.
Arguments Raise {A} e.

(** A class object, as far as this module looks at it: its [__name__], its
    [str()], whether [issubclass(cls, BaseSubSearcher)] holds, and the two
    capability lists. *)
Record pyclass := PyClass {
  cls_name : string;
  cls_str : string;
  is_subsearcher : bool;
  SUPPORT_LANGUAGES : list string;
  SUPPORT_EXTS : list string
}.

(** The form fields posted to the service. *)
Record payload := Payload {
  filehash : string;
  pathinfo : string;
  format : string;
  lang : string
}.

Record request := Request { url : string; data : payload }.

(** The decoded JSON answer: a list of [{Desc, Delay, Files}] objects whose
    [Files] are [{Ext, Link}] objects. *)
Record file_item := FileItem { Ext : string; Link : string }.
Record subinfo_json := SubinfoJson {
  Desc : string;
  Delay : Z;
  Files : list file_item
}.

(** One record of the list [search_subs] returns (keys [link], [language],
    [subname], [ext]). *)
Record subinfo := Subinfo {
  sub_link : string;
  sub_language : string;
  sub_subname : string;
  sub_ext : string
}.

(** An argument that may be [None], one [str] or a list of [str]. *)
Inductive pyarg :=
| PyNone
| PyStr (s : string)
| PyList (l : list string).

(** What the module reads and writes outside itself.
    - [files]: the regular files of the file system, by absolute path;
    - [abspath]: [os.path.abspath] under the current working directory;
    - [registered_subsearchers]: the module-level registry;
    - [sent]: the requests posted so far through [requests];
    - [remote]: what posting a request and decoding its answer gives, after
      the given earlier requests: the decoded JSON, or the message of the
      exception raised by the transport or by [res.json()]. *)
Record World := MkWorld {
  files : gmap string (list Byte.byte);
  abspath : string -> string;
  registered_subsearchers : gmap string pyclass;
  sent : list request;
  remote : list request -> request -> string + list subinfo_json
}.

(** State and exceptions. *)
Definition M (A : Type) : Type := World -> World * outcome A.

Definition ret {A} (a : A) : M A := fun w => (w, Ok a).
Definition raise {A} (e : exn) : M A := fun w => (w, Raise e).
Definition bind {A B} (m : M A) (k : A -> M B) : M B :=
  fun w =>
    match m w with
    | (w', Ok a) => k a w'
    | (w', Raise e) => (w', Raise e)
    end.

(** [try: m  except Exception as e: h e]. *)
Definition try_except {A} (m : M A) (h : exn -> M A) : M A :=
  fun w =>
    match m w with
    | (w', Ok a) => (w', Ok a)
    | (w', Raise e) => h e w'
    end.

Declare Scope py_scope.
Delimit Scope py_scope with py.
Notation "x <- m ;; k" := (bind m (fun x => k))
  (at level 100, m at next level, right associativity) : py_scope.
Notation "m ;;; k" := (bind m (fun _ => k))
  (at level 100, right associativity) : py_scope.
Local Open Scope py_scope.

(** A [dict] whose iteration order matters: keys in order of first
    insertion, [d[k] = v] replaces in place. *)
Fixpoint dict_set {V} (d : list (string * V)) (k : string) (v : V)
  : list (string * V) :=
  match d with
  | [] => [(k, v)]
  | (k', v') :: r =>
      if String.eqb k k' then (k, v) :: r else (k', v') :: dict_set r k v
  end.

Fixpoint dict_get {V} (d : list (string * V)) (k : string) : option V :=
  match d with
  | [] => None
  | (k', v') :: r => if String.eqb k k' then Some v' else dict_get r k
  end.

(* ===================================================================== *)
(** * The registry                                                        *)
(* ===================================================================== *)

Definition register_subsearcher (name : string) (subsearcher_cls : pyclass)
  : M unit :=
  if negb (is_subsearcher subsearcher_cls) then
    raise (ValueError (cls_str subsearcher_cls
                         +:+ " is not a subclass of BaseSubSearcher"))
  else
    fun w =>
      (MkWorld (files w) (abspath w)
               (<[name := subsearcher_cls]> (registered_subsearchers w))
               (sent w) (remote w),
       Ok tt).

(** [registered_subsearchers.get(name, default)]; [None] is Python's
    [None]. *)
Definition get_subsearcher (name : string) (default : option pyclass)
  : M (option pyclass) :=
  fun w =>
    (w, Ok (match registered_subsearchers w !! name with
            | Some c => Some c
            | None => default
            end)).

(** The inner function of [register]. *)
Definition decorator (name : option string) (subsearcher_cls : pyclass)
  : M pyclass :=
  let _name :=
    match name with
    | None => cls_name subsearcher_cls
    | Some n => n
    end in
  register_subsearcher _name subsearcher_cls ;;;
  ret subsearcher_cls.

(** [register(subsearcher_cls, name)]: the decorated class when a class is
    given, the decorator itself otherwise. *)
Definition register (subsearcher_cls : option pyclass) (name : option string)
  : M pyclass + (pyclass -> M pyclass) :=
  match subsearcher_cls with
  | Some c => inl (decorator name c)
  | None => inr (decorator name)
  end.

(* ===================================================================== *)
(** * [BaseSubSearcher]                                                   *)
(* ===================================================================== *)

Fixpoint _check_languages (cls : pyclass) (languages : list string) : M unit :=
  match languages with
  | [] => ret tt
  | lang :: rest =>
      if negb (bool_decide (lang ∈ SUPPORT_LANGUAGES cls)) then
        raise (LanguageError (cls_name cls +:+ " don't support " +:+ lang
                                +:+ " language"))
      else _check_languages cls rest
  end.

Fixpoint _check_exts (cls : pyclass) (exts : list string) : M unit :=
  match exts with
  | [] => ret tt
  | ext :: rest =>
      if negb (bool_decide (ext ∈ SUPPORT_EXTS cls)) then
        raise (ExtError (cls_name cls +:+ " don't support " +:+ ext
                           +:+ " ext"))
      else _check_exts cls rest
  end.

(* ===================================================================== *)
(** * [ShooterSubSearcher]                                                *)
(* ===================================================================== *)

Definition ShooterSubSearcher : pyclass :=
  {| cls_name := "ShooterSubSearcher";
     cls_str := "<class 'subfinder.subsearcher.ShooterSubSearcher'>";
     is_subsearcher := true;
     SUPPORT_LANGUAGES := ["Chn"; "Eng"];
     SUPPORT_EXTS := ["ass"; "srt"] |}.

Definition API_URL : string := "https://www.shooter.cn/api/subapi.php".

(** The two decorators on the class, innermost first:
    [@register @register(name='default') class ShooterSubSearcher]. *)
Definition module_init : M unit :=
  c <- match register None (Some "default") with
       | inr dec => dec ShooterSubSearcher
       | inl m => m
       end ;;
  _ <- match register (Some c) None with
       | inl m => m
       | inr dec => dec c
       end ;;
  ret tt.

(** ** The video file object *)

Record file_obj := FileObj { f_data : list Byte.byte; f_pos : Z }.

(** [open(videofile, 'rb')]. *)
Definition open_rb (videofile : string) : M file_obj :=
  fun w =>
    match files w !! videofile with
    | Some d => (w, Ok (FileObj d 0))
    | None =>
        (w, Raise (OSError ("No such file or directory: '" +:+ videofile
                              +:+ "'")))
    end.

(** [os.fstat(fp.fileno()).st_size]. *)
Definition st_size (fp : file_obj) : Z := Z.of_nat (length (f_data fp)).

(** [fp.seek(pos, 0)]. *)
Definition seek (fp : file_obj) (pos : Z) : M file_obj :=
  if pos <? 0 then raise (OSError "Invalid argument")
  else ret (FileObj (f_data fp) pos).

(** [fp.read(n)]: at most [n] bytes from the current position, which moves
    past them. *)
Definition read (fp : file_obj) (n : Z) : file_obj * list Byte.byte :=
  let chunk := take (Z.to_nat n) (drop (Z.to_nat (f_pos fp)) (f_data fp)) in
  (FileObj (f_data fp) (f_pos fp + Z.of_nat (length chunk)), chunk).

(** The loop [for pos in seek_positions] of [_compute_video_hash]. *)
Fixpoint hash_loop (fp : file_obj) (seek_positions : list Z)
    (hash_result : list string) : M (list string) :=
  match seek_positions with
  | [] => ret hash_result
  | pos :: rest =>
      fp <- seek fp pos ;;
      let '(fp, data) := read fp 4096 in
      let m := hashlib.md5_hexdigest data in
      hash_loop fp rest (hash_result ++ [m])
  end.

Definition _compute_video_hash (videofile : string) : M string :=
  fp <- open_rb videofile ;;
  let total_size := st_size fp in
  if total_size <? 8192 + 4096 then
    raise (InvalidFileError ("the video[" +:+ posixpath.basename videofile
                               +:+ "] is too small"))
  else
    let seek_positions :=
      [ 4096; total_size / 3 * 2; total_size / 3; total_size - 8192 ] in
    hash_result <- hash_loop fp seek_positions [] ;;
    ret (str_join ";" hash_result).

(** ** Names of subtitle files *)

Definition _gen_subname (videofile language ext : string) : string :=
  let '(root, basename) := posixpath.split videofile in
  let '(name, _) := posixpath.splitext basename in
  let subname := name +:+ "." +:+ language +:+ "." +:+ ext in
  posixpath.join root subname.

(** ** The search *)

(** [self.session.post(url, data=payload)] followed by [res.json()]. *)
Definition session_post_json (u : string) (p : payload)
  : M (list subinfo_json) :=
  fun w =>
    let req := Request u p in
    let w' := MkWorld (files w) (abspath w) (registered_subsearchers w)
                      (sent w ++ [req]) (remote w) in
    match remote w (sent w) req with
    | inl msg => (w', Raise (TransportError msg))
    | inr js => (w', Ok js)
    end.

(** The loop [for language in languages]: one request per language, on the
    one [payload] whose ['lang'] field is overwritten each time. *)
Fixpoint query_loop (languages : list string) (p : payload)
    (result : list (string * list subinfo_json))
  : M (list (string * list subinfo_json)) :=
  match languages with
  | [] => ret result
  | language :: rest =>
      let p := Payload (filehash p) (pathinfo p) (format p) language in
      res <- try_except (session_post_json API_URL p)
               (fun e => raise (SearchingSubinfoError (exn_str e))) ;;
      query_loop rest p (dict_set result language res)
  end.

(** The body of [for item in files]. *)
Definition visit_item (videofile : string) (exts : list string)
    (language : string) (st : list subinfo * gset string) (item : file_item)
  : list subinfo * gset string :=
  let '(subinfos, ext_set) := st in
  let ext_ := lower (Ext item) in
  let link := Link item in
  if bool_decide (ext_ ∈ exts) && negb (bool_decide (ext_ ∈ ext_set)) then
    ((subinfos ++ [ Subinfo link language
                            (_gen_subname videofile language ext_) ext_ ])%list,
     ext_set ∪ {[ ext_ ]})
  else st.

(** The body of [for subinfo in subinfolist]. *)
Definition visit_subinfo (videofile : string) (exts : list string)
    (language : string) (st : list subinfo * gset string) (s : subinfo_json)
  : list subinfo * gset string :=
  fold_left (visit_item videofile exts language) (Files s) st.

(** The body of [for language, subinfolist in result.items()]; [ext_set]
    starts empty for each language. *)
Definition visit_language (videofile : string) (exts : list string)
    (subinfos : list subinfo) (entry : string * list subinfo_json)
  : list subinfo :=
  let '(language, subinfolist) := entry in
  fst (fold_left (visit_subinfo videofile exts language) subinfolist
         (subinfos, ∅)).

(** The second half of [search_subs]: the answers folded into records. *)
Definition normalize (videofile : string) (exts : list string)
    (result : list (string * list subinfo_json)) : list subinfo :=
  fold_left (visit_language videofile exts) result [].

Definition search_subs (self : pyclass) (videofile : string)
    (languages exts : pyarg) : M (list subinfo) :=
  videofile <- (fun w => (w, Ok (abspath w videofile))) ;;
  languages <-
    match languages with
    | PyNone =>
        match SUPPORT_LANGUAGES self with
        | l0 :: _ => ret [l0]
        | [] => raise (IndexError "list index out of range")
        end
    | PyStr s => ret [s]
    | PyList l => ret l
    end ;;
  _check_languages self languages ;;;
  exts <-
    match exts with
    | PyNone => ret (SUPPORT_EXTS self)
    | PyStr s => ret [s]
    | PyList l => ret l
    end ;;
  _check_exts self exts ;;;
  filehash <- _compute_video_hash videofile ;;
  let '(root, basename) := posixpath.split videofile in
  let p := Payload filehash basename "json" "" in
  result <- query_loop languages p [] ;;
  ret (normalize videofile exts result).

(* ===================================================================== *)
(** * Vocabulary of the statements, and sample data                       *)
(* ===================================================================== *)

(** The tokens a caller asks for explicitly. *)
Definition tokens (a : pyarg) : list string :=
  match a with
  | PyNone => []
  | PyStr s => [s]
  | PyList l => l
  end.

(** The languages and the formats a call works with, once [None] and a
    lone [str] are replaced as [search_subs] does. *)
Definition requested_languages (self : pyclass) (languages : pyarg)
  : list string :=
  match languages with
  | PyNone => take 1 (SUPPORT_LANGUAGES self)
  | PyStr s => [s]
  | PyList l => l
  end.

Definition requested_exts (self : pyclass) (exts : pyarg) : list string :=
  match exts with
  | PyNone => SUPPORT_EXTS self
  | PyStr s => [s]
  | PyList l => l
  end.

(** The 4096 bytes (fewer at the end of the file) that start at the
    absolute position [offset]. *)
Definition window (content : list Byte.byte) (offset : Z) : list Byte.byte :=
  take 4096 (drop (Z.to_nat offset) content).

(** The hex digests of the windows at [offsets], in the order of [offsets],
    joined by [;]. *)
Definition fingerprint_at (content : list Byte.byte) (offsets : list Z)
  : string :=
  str_join ";" (map (fun o => hashlib.md5_hexdigest (window content o)) offsets).

(** The four offsets as the specification words them:
    4096, floor(2T/3), floor(T/3), T - 8192. *)
Definition spec_offsets (T : Z) : list Z :=
  [ 4096; 2 * T / 3; T / 3; T - 8192 ].

(** The four offsets with the second one as twice floor(T/3). *)
Definition shooter_offsets (T : Z) : list Z :=
  [ 4096; 2 * (T / 3); T / 3; T - 8192 ].

(** The fingerprint as a function of the bytes alone. *)
Definition video_fingerprint (content : list Byte.byte) : option string :=
  let T := Z.of_nat (length content) in
  if T <? 12288 then None
  else Some (fingerprint_at content (shooter_offsets T)).

Definition fingerprint_of (r : outcome string) : option string :=
  match r with
  | Ok h => Some h
  | Raise _ => None
  end.

Definition is_hex_char (c : ascii) : bool :=
  existsb (Ascii.eqb c) (list_ascii_of_string "0123456789abcdef").

(** 32 lower-case hexadecimal characters. *)
Definition is_hexdigest (h : string) : bool :=
  Nat.eqb (String.length h) 32 && forallb is_hex_char (list_ascii_of_string h).

Definition slash_free (s : string) : Prop :=
  posixpath.sep ∉ list_ascii_of_string s.

(** The first file entry, in response order, whose lower-cased extension is
    [fmt]. *)
Definition first_match (fmt : string) (subinfolist : list subinfo_json)
  : option file_item :=
  find (fun item => String.eqb (lower (Ext item)) fmt)
       (flat_map Files subinfolist).

(** The base name of the video without its extension. *)
Definition video_stem (videofile : string) : string :=
  fst (posixpath.splitext (snd (posixpath.split videofile))).

(** What [os.path.split] gives as a directory: slashes only, or something
    that does not end in a slash. *)
Definition dirlike (h : list ascii) : Prop :=
  posixpath.all_sep h = true \/ posixpath.endswith_sep h = false.

(** The world after one more request. *)
Definition after_post (w : World) (req : request) : World :=
  MkWorld (files w) (abspath w) (registered_subsearchers w)
          (sent w ++ [req]) (remote w).

(** The requests posted during a call that took the world from [w] to
    [w']. *)
Definition posted (w w' : World) : list request :=
  drop (length (sent w)) (sent w').

Definition zeros (n : Z) : list Byte.byte := repeat Byte.x00 (Z.to_nat n).

(** A 20000-byte video, and a 12290-byte one with a single marked byte at
    position 8192. *)
Definition sample_video : list Byte.byte := zeros 20000.
Definition marked_video : list Byte.byte :=
  zeros 8192 ++ [Byte.x01] ++ zeros 4097.

Definition sample_answer : list subinfo_json :=
  [ SubinfoJson "x" 0 [ FileItem "SRT" "http://x/1";
                        FileItem "ass" "http://x/2";
                        FileItem "srt" "http://x/3" ] ].

(** A world with the videos ([/w/copy.mkv] has the bytes of
    [/v/movie.mkv]); the service answers queries for ["Eng"] and fails on
    anything else. *)
Definition sample_world : World :=
  MkWorld (<[ "/v/movie.mkv" := sample_video ]>
             (<[ "/w/copy.mkv" := sample_video ]>
                (<[ "/v/marked.mkv" := marked_video ]>
                   (<[ "/v/short.mkv" := zeros 12287 ]>
                      (<[ "/v/least.mkv" := zeros 12288 ]> ∅)))))
          (fun p => "/v/" +:+ p)
          ∅
          []
          (fun _ r =>
             if String.eqb (lang (data r)) "Eng" then inr sample_answer
             else inl "connection reset").

Definition OtherSubSearcher : pyclass :=
  {| cls_name := "OtherSubSearcher";
     cls_str := "<class 'plugin.OtherSubSearcher'>";
     is_subsearcher := true;
     SUPPORT_LANGUAGES := ["Fra"];
     SUPPORT_EXTS := ["sub"] |}.

(** ** Vocabulary of the further properties *)

(** The elements of a list in the order of their first occurrence. *)
Fixpoint first_occurrences (l : list string) : list string :=
  match l with
  | [] => []
  | x :: r => x :: filter (fun y => y <> x) (first_occurrences r)
  end.

(** The lower-cased extensions of the file entries of an answer, in
    response order, that are among [exts]. *)
Definition answer_exts (exts : list string) (subinfolist : list subinfo_json)
  : list string :=
  filter (fun e => e ∈ exts)
    (map (fun item => lower (Ext item)) (flat_map Files subinfolist)).

Definition record_key (d : subinfo) : string * string :=
  (sub_language d, sub_ext d).


Definition dot_free (s : string) : Prop :=
  posixpath.extsep ∉ list_ascii_of_string s.

(** Some character of [s] is not a dot. *)
Definition has_non_dot (s : string) : bool :=
  existsb (fun x => negb (Ascii.eqb x posixpath.extsep))
          (list_ascii_of_string s).

Definition NotASearcher : pyclass :=
  {| cls_name := "dict";
     cls_str := "<class 'dict'>";
     is_subsearcher := false;
     SUPPORT_LANGUAGES := [];
     SUPPORT_EXTS := [] |}.

(** A world with one video whose service answers every request, each time
    with one entry whose link tells whether requests came before. *)
Definition counting_world : World :=
  MkWorld (<[ "/v/least.mkv" := zeros 12288 ]> ∅) (fun p => "/v/" +:+ p) ∅ []
          (fun history r =>
             inr [ SubinfoJson "n" (Z.of_nat (length history))
                     [ FileItem "srt"
                         (if Nat.eqb (length history) 0 then "http://x/first"
                          else "http://x/later") ] ]).

(** Two videos that differ in each of their first 4096 bytes and in
    nothing else, in a world whose service is down. *)
Definition first_block_a : list Byte.byte := zeros 4096.
Definition first_block_b : list Byte.byte := repeat Byte.xff (Z.to_nat 4096).
Definition later_blocks : list Byte.byte := zeros 8192.

Definition block_world : World :=
  MkWorld (<[ "/a.mkv" := (first_block_a ++ later_blocks)%list ]>
             (<[ "/b.mkv" := (first_block_b ++ later_blocks)%list ]> ∅))
          (fun p => p) ∅ [] (fun _ _ => inl "offline").

(* ===================================================================== *)
(** * The embedding on concrete inputs                                    *)
(* ===================================================================== *)

Example md5_empty :
  hashlib.md5_hexdigest [] = "d41d8cd98f00b204e9800998ecf8427e".
Proof. vm_compute. reflexivity. Qed.
Example md5_abc :
  hashlib.md5_hexdigest (ascii_bytes "abc") = "900150983cd24fb0d6963f7d28e17f72".
Proof. vm_compute. reflexivity. Qed.
Example md5_two_blocks :
  hashlib.md5_hexdigest (repeat "a"%byte 64) = "014842d480b571495a4a0363793f7367".
Proof. vm_compute. reflexivity. Qed.
Example md5_pad_boundary :
  hashlib.md5_hexdigest (repeat "x"%byte 56) = "668a72d5ba17f08e62dabcafad6db14b".
Proof. vm_compute. reflexivity. Qed.
Example split_abs : posixpath.split "/home/u/movie.mkv" = ("/home/u", "movie.mkv").
Proof. reflexivity. Qed.
Example split_root : posixpath.split "/movie.mkv" = ("/", "movie.mkv").
Proof. reflexivity. Qed.
Example split_rel : posixpath.split "movie.mkv" = ("", "movie.mkv").
Proof. reflexivity. Qed.
Example split_slashes : posixpath.split "/a//b" = ("/a", "b").
Proof. reflexivity. Qed.
Example splitext_plain : posixpath.splitext "movie.2019.mkv" = ("movie.2019", ".mkv").
Proof. reflexivity. Qed.
Example splitext_hidden : posixpath.splitext ".bashrc" = (".bashrc", "").
Proof. reflexivity. Qed.
Example splitext_dir_dot : posixpath.splitext "/a.b/c" = ("/a.b/c", "").
Proof. reflexivity. Qed.
Example join_plain : posixpath.join "/home/u" "movie.Chn.srt" = "/home/u/movie.Chn.srt".
Proof. reflexivity. Qed.
Example join_root : posixpath.join "/" "movie.Chn.srt" = "/movie.Chn.srt".
Proof. reflexivity. Qed.
Example lower_srt : lower "SrT" = "srt".
Proof. reflexivity. Qed.

Example search_end_to_end :
  snd (search_subs ShooterSubSearcher "movie.mkv" (PyStr "Eng") PyNone
         sample_world)
  = Ok [ Subinfo "http://x/1" "Eng" "/v/movie.Eng.srt" "srt";
         Subinfo "http://x/2" "Eng" "/v/movie.Eng.ass" "ass" ].
Proof. vm_compute. reflexivity. Qed.

Example search_only_ass :
  snd (search_subs ShooterSubSearcher "movie.mkv" (PyStr "Eng") (PyStr "ass")
         sample_world)
  = Ok [ Subinfo "http://x/2" "Eng" "/v/movie.Eng.ass" "ass" ].
Proof. vm_compute. reflexivity. Qed.

Example search_repeated_language :
  length (posted sample_world
            (fst (search_subs ShooterSubSearcher "movie.mkv"
                    (PyList ["Eng"; "Eng"]) PyNone sample_world))) = 2%nat
  /\ snd (search_subs ShooterSubSearcher "movie.mkv"
            (PyList ["Eng"; "Eng"]) PyNone sample_world)
     = Ok [ Subinfo "http://x/1" "Eng" "/v/movie.Eng.srt" "srt";
            Subinfo "http://x/2" "Eng" "/v/movie.Eng.ass" "ass" ].
Proof. vm_compute. split; reflexivity. Qed.

Example module_init_binds_both_names :
  registered_subsearchers (fst (module_init sample_world))
  = <[ "ShooterSubSearcher" := ShooterSubSearcher ]>
      (<[ "default" := ShooterSubSearcher ]> ∅).
Proof. reflexivity. Qed.


(* ===================================================================== *)
(** * The monad                                                           *)
(* ===================================================================== *)

Lemma bind_ok {A B} (m : M A) (k : A -> M B) w w' a :
  m w = (w', Ok a) -> bind m k w = k a w'.
Proof. intros H. unfold bind. rewrite H. reflexivity. Qed.

Lemma bind_raise {A B} (m : M A) (k : A -> M B) w w' e :
  m w = (w', Raise e) -> bind m k w = (w', Raise e).
Proof. intros H. unfold bind. rewrite H. reflexivity. Qed.

Lemma bind_ok_inv {A B} (m : M A) (k : A -> M B) w w2 b :
  bind m k w = (w2, Ok b) ->
  exists w1 a, m w = (w1, Ok a) /\ k a w1 = (w2, Ok b).
Proof.
  unfold bind. destruct (m w) as [w1 [a | e]]; intros H.
  - exists w1, a. split; [reflexivity | exact H].
  - discriminate H.
Qed.

(* ===================================================================== *)
(** * The registry                                                        *)
(* ===================================================================== *)

Lemma register_subsearcher_ok name cls w :
  is_subsearcher cls = true ->
  exists w',
    register_subsearcher name cls w = (w', Ok tt)
    /\ registered_subsearchers w' = <[name := cls]> (registered_subsearchers w)
    /\ files w' = files w /\ sent w' = sent w.
Proof.
  intros Hsub. unfold register_subsearcher. rewrite Hsub. simpl.
  eexists. split; [reflexivity |]. simpl. auto.
Qed.

Lemma register_subsearcher_rejects name cls w :
  is_subsearcher cls = false ->
  exists msg, register_subsearcher name cls w = (w, Raise (ValueError msg)).
Proof.
  intros Hsub. unfold register_subsearcher. rewrite Hsub. simpl.
  eexists. reflexivity.
Qed.

Lemma get_subsearcher_bound name default cls w :
  registered_subsearchers w !! name = Some cls ->
  get_subsearcher name default w = (w, Ok (Some cls)).
Proof. intros H. unfold get_subsearcher. rewrite H. reflexivity. Qed.

Lemma get_subsearcher_unbound name default w :
  registered_subsearchers w !! name = None ->
  get_subsearcher name default w = (w, Ok default).
Proof. intros H. unfold get_subsearcher. rewrite H. reflexivity. Qed.

(** C7: registering a searcher class [B] under a name bound to [A] raises
    nothing and rebinds the name, so that looking the name up afterwards
    gives [B] whatever the fallback; looking up a name that is not bound
    gives the caller's fallback, raises nothing and leaves the world as it
    was. *)
Theorem registry_overwrite_and_fallback
    (w : World) (name other : string) (A B : pyclass)
    (default : option pyclass) :
  registered_subsearchers w !! name = Some A ->
  is_subsearcher B = true ->
  registered_subsearchers w !! other = None ->
  (exists w',
      register_subsearcher name B w = (w', Ok tt)
      /\ get_subsearcher name default w' = (w', Ok (Some B)))
  /\ get_subsearcher other default w = (w, Ok default).
Proof.
  intros HA HB Hother. split.
  - destruct (register_subsearcher_ok name B w HB) as (w' & Hreg & Hmap & _).
    exists w'. split; [exact Hreg |].
    apply get_subsearcher_bound. rewrite Hmap. apply lookup_insert_eq.
  - apply get_subsearcher_unbound. exact Hother.
Qed.

Lemma registry_overwrite_and_fallback_witness :
  registered_subsearchers (fst (module_init sample_world)) !! "default"
    = Some ShooterSubSearcher
  /\ is_subsearcher OtherSubSearcher = true
  /\ registered_subsearchers (fst (module_init sample_world))
       !! "opensubtitles" = None
  /\ (exists w',
        register_subsearcher "default" OtherSubSearcher
          (fst (module_init sample_world)) = (w', Ok tt)
        /\ get_subsearcher "default" None w'
           = (w', Ok (Some OtherSubSearcher)))
  /\ get_subsearcher "opensubtitles" None (fst (module_init sample_world))
     = (fst (module_init sample_world), Ok None).
Proof.
  split; [reflexivity |]. split; [reflexivity |]. split; [reflexivity |].
  apply (registry_overwrite_and_fallback
           (fst (module_init sample_world)) "default" "opensubtitles"
           ShooterSubSearcher OtherSubSearcher None);
    reflexivity.
Defined.

(* ===================================================================== *)
(** * Capability checks                                                   *)
(* ===================================================================== *)

Lemma check_languages_pass cls languages w :
  Forall (fun l => l ∈ SUPPORT_LANGUAGES cls) languages ->
  _check_languages cls languages w = (w, Ok tt).
Proof.
  induction 1 as [| l ls Hl _ IH]; simpl; [reflexivity |].
  rewrite (bool_decide_eq_true_2 _ Hl). simpl. exact IH.
Qed.

Lemma check_languages_fail cls languages lang w :
  lang ∈ languages -> lang ∉ SUPPORT_LANGUAGES cls ->
  exists msg, _check_languages cls languages w = (w, Raise (LanguageError msg)).
Proof.
  intros Hin Hbad. induction languages as [| l ls IH]; [inversion Hin |].
  simpl. destruct (bool_decide (l ∈ SUPPORT_LANGUAGES cls)) eqn:Hl; simpl.
  - apply IH. apply elem_of_cons in Hin as [-> | Hin]; [| exact Hin].
    apply bool_decide_eq_true_1 in Hl. contradiction.
  - eexists. reflexivity.
Qed.

Lemma check_languages_ok_inv cls languages w w' u :
  _check_languages cls languages w = (w', Ok u) ->
  w' = w /\ Forall (fun l => l ∈ SUPPORT_LANGUAGES cls) languages.
Proof.
  induction languages as [| l ls IH]; simpl.
  - intros [= <- _]. split; [reflexivity | constructor].
  - destruct (bool_decide (l ∈ SUPPORT_LANGUAGES cls)) eqn:Hl; simpl;
      [| discriminate].
    intros H. destruct (IH H) as [-> Hall]. split; [reflexivity |].
    apply bool_decide_eq_true_1 in Hl. constructor; [exact Hl | exact Hall].
Qed.

Lemma check_exts_pass cls exts w :
  Forall (fun e => e ∈ SUPPORT_EXTS cls) exts ->
  _check_exts cls exts w = (w, Ok tt).
Proof.
  induction 1 as [| e es He _ IH]; simpl; [reflexivity |].
  rewrite (bool_decide_eq_true_2 _ He). simpl. exact IH.
Qed.

Lemma check_exts_fail cls exts ext w :
  ext ∈ exts -> ext ∉ SUPPORT_EXTS cls ->
  exists msg, _check_exts cls exts w = (w, Raise (ExtError msg)).
Proof.
  intros Hin Hbad. induction exts as [| e es IH]; [inversion Hin |].
  simpl. destruct (bool_decide (e ∈ SUPPORT_EXTS cls)) eqn:He; simpl.
  - apply IH. apply elem_of_cons in Hin as [-> | Hin]; [| exact Hin].
    apply bool_decide_eq_true_1 in He. contradiction.
  - eexists. reflexivity.
Qed.

Lemma check_exts_ok_inv cls exts w w' u :
  _check_exts cls exts w = (w', Ok u) ->
  w' = w /\ Forall (fun e => e ∈ SUPPORT_EXTS cls) exts.
Proof.
  induction exts as [| e es IH]; simpl.
  - intros [= <- _]. split; [reflexivity | constructor].
  - destruct (bool_decide (e ∈ SUPPORT_EXTS cls)) eqn:He; simpl;
      [| discriminate].
    intros H. destruct (IH H) as [-> Hall]. split; [reflexivity |].
    apply bool_decide_eq_true_1 in He. constructor; [exact He | exact Hall].
Qed.

(** A call that names a language the class does not declare stops in
    [_check_languages], in the world it started in. *)
Lemma search_subs_bad_language self videofile languages exts lang w :
  lang ∈ tokens languages -> lang ∉ SUPPORT_LANGUAGES self ->
  exists msg,
    search_subs self videofile languages exts w
    = (w, Raise (LanguageError msg)).
Proof.
  intros Hin Hbad. unfold search_subs.
  rewrite (bind_ok _ _ w w (abspath w videofile)) by reflexivity.
  destruct languages as [| s | l]; simpl in Hin.
  - inversion Hin.
  - rewrite (bind_ok _ _ w w [s]) by reflexivity.
    destruct (check_languages_fail self [s] lang w Hin Hbad) as [msg Hmsg].
    exists msg. apply bind_raise. exact Hmsg.
  - rewrite (bind_ok _ _ w w l) by reflexivity.
    destruct (check_languages_fail self l lang w Hin Hbad) as [msg Hmsg].
    exists msg. apply bind_raise. exact Hmsg.
Qed.

(** C4: when the languages asked for contain a token outside
    [SUPPORT_LANGUAGES], [search_subs] raises [LanguageError], returns no
    records, and has posted no request: the world, and with it the log of
    requests, is the one the call started in. *)
Theorem unsupported_language_fails_before_network
    (self : pyclass) (videofile : string) (languages exts : pyarg)
    (lang : string) (w : World) :
  lang ∈ tokens languages ->
  lang ∉ SUPPORT_LANGUAGES self ->
  (exists msg,
      snd (search_subs self videofile languages exts w)
      = Raise (LanguageError msg))
  /\ fst (search_subs self videofile languages exts w) = w
  /\ posted w (fst (search_subs self videofile languages exts w)) = [].
Proof.
  intros Hin Hbad.
  destruct (search_subs_bad_language self videofile languages exts lang w
              Hin Hbad) as [msg Hmsg].
  rewrite Hmsg. simpl. split; [exists msg; reflexivity |].
  split; [reflexivity |]. unfold posted. apply drop_all.
Qed.

Lemma unsupported_language_fails_before_network_witness :
  ("Fra" ∈ tokens (PyList ["Eng"; "Fra"]))
  /\ ("Fra" ∉ SUPPORT_LANGUAGES ShooterSubSearcher)
  /\ (exists msg,
        snd (search_subs ShooterSubSearcher "movie.mkv"
               (PyList ["Eng"; "Fra"]) PyNone sample_world)
        = Raise (LanguageError msg))
  /\ fst (search_subs ShooterSubSearcher "movie.mkv"
            (PyList ["Eng"; "Fra"]) PyNone sample_world) = sample_world
  /\ posted sample_world
       (fst (search_subs ShooterSubSearcher "movie.mkv"
               (PyList ["Eng"; "Fra"]) PyNone sample_world)) = [].
Proof.
  assert (H1 : "Fra" ∈ tokens (PyList ["Eng"; "Fra"])) by (apply (bool_decide_unpack _); vm_compute; exact I).
  assert (H2 : "Fra" ∉ SUPPORT_LANGUAGES ShooterSubSearcher)
    by (apply (bool_decide_unpack _); vm_compute; exact I).
  split; [exact H1 |]. split; [exact H2 |].
  exact (unsupported_language_fails_before_network ShooterSubSearcher
           "movie.mkv" (PyList ["Eng"; "Fra"]) PyNone "Fra" sample_world
           H1 H2).
Defined.

(** C10: when the languages contain an undeclared token and the formats
    contain an undeclared token too, the exception raised is the
    [LanguageError] of the language check, which runs first. *)
Theorem language_check_precedes_ext_check
    (self : pyclass) (videofile : string) (languages exts : pyarg)
    (lang ext : string) (w : World) :
  lang ∈ tokens languages ->
  lang ∉ SUPPORT_LANGUAGES self ->
  ext ∈ tokens exts ->
  ext ∉ SUPPORT_EXTS self ->
  (exists msg,
      snd (search_subs self videofile languages exts w)
      = Raise (LanguageError msg))
  /\ (forall msg,
        snd (search_subs self videofile languages exts w)
        <> Raise (ExtError msg)).
Proof.
  intros Hin Hbad _ _.
  destruct (search_subs_bad_language self videofile languages exts lang w
              Hin Hbad) as [msg Hmsg].
  rewrite Hmsg. simpl. split; [exists msg; reflexivity | discriminate].
Qed.

Lemma language_check_precedes_ext_check_witness :
  ("Fra" ∈ tokens (PyStr "Fra"))
  /\ ("Fra" ∉ SUPPORT_LANGUAGES ShooterSubSearcher)
  /\ ("sub" ∈ tokens (PyList ["srt"; "sub"]))
  /\ ("sub" ∉ SUPPORT_EXTS ShooterSubSearcher)
  /\ (exists msg,
        snd (search_subs ShooterSubSearcher "movie.mkv" (PyStr "Fra")
               (PyList ["srt"; "sub"]) sample_world)
        = Raise (LanguageError msg))
  /\ (forall msg,
        snd (search_subs ShooterSubSearcher "movie.mkv" (PyStr "Fra")
               (PyList ["srt"; "sub"]) sample_world)
        <> Raise (ExtError msg)).
Proof.
  assert (H1 : "Fra" ∈ tokens (PyStr "Fra")) by (apply (bool_decide_unpack _); vm_compute; exact I).
  assert (H2 : "Fra" ∉ SUPPORT_LANGUAGES ShooterSubSearcher)
    by (apply (bool_decide_unpack _); vm_compute; exact I).
  assert (H3 : "sub" ∈ tokens (PyList ["srt"; "sub"])) by (apply (bool_decide_unpack _); vm_compute; exact I).
  assert (H4 : "sub" ∉ SUPPORT_EXTS ShooterSubSearcher) by (apply (bool_decide_unpack _); vm_compute; exact I).
  split; [exact H1 |]. split; [exact H2 |].
  split; [exact H3 |]. split; [exact H4 |].
  exact (language_check_precedes_ext_check ShooterSubSearcher "movie.mkv"
           (PyStr "Fra") (PyList ["srt"; "sub"]) "Fra" "sub" sample_world
           H1 H2 H3 H4).
Defined.

(** The format check does run, after the language check: with declared
    languages and an undeclared format the exception is [ExtError]. *)
Lemma search_subs_bad_ext self videofile languages exts ext w :
  tokens languages <> [] ->
  Forall (fun l => l ∈ SUPPORT_LANGUAGES self) (tokens languages) ->
  ext ∈ tokens exts -> ext ∉ SUPPORT_EXTS self ->
  exists msg,
    search_subs self videofile languages exts w = (w, Raise (ExtError msg)).
Proof.
  intros Hne Hall Hin Hbad. unfold search_subs.
  rewrite (bind_ok _ _ w w (abspath w videofile)) by reflexivity.
  rewrite (bind_ok _ _ w w (tokens languages)).
  2:{ destruct languages; simpl in *;
        [contradiction Hne | |]; reflexivity. }
  rewrite (bind_ok _ _ w w tt) by (apply check_languages_pass, Hall).
  rewrite (bind_ok _ _ w w (tokens exts)).
  2:{ destruct exts; simpl in *; [inversion Hin | |]; reflexivity. }
  destruct (check_exts_fail self (tokens exts) ext w Hin Hbad) as [msg Hmsg].
  exists msg. apply bind_raise. exact Hmsg.
Qed.

(* ===================================================================== *)
(** * Hex digests                                                         *)
(* ===================================================================== *)

Lemma hexchar_is_hex n : is_hex_char (hashlib.hexchar n) = true.
Proof.
  unfold hashlib.hexchar.
  destruct (Z.land n 15) as [| p | p]; [reflexivity | | reflexivity].
  do 4 (try destruct p as [p | p |]); reflexivity.
Qed.

Lemma md5_hexdigest_is_hexdigest data :
  is_hexdigest (hashlib.md5_hexdigest data) = true.
Proof.
  unfold hashlib.md5_hexdigest.
  generalize (hashlib.digest_state
                (map (fun b => Z.of_N (Byte.to_N b)) data)).
  intros [a b c d]. unfold is_hexdigest.
  cbv -[hashlib.hexchar Z.land Z.shiftr is_hex_char andb].
  rewrite !hexchar_is_hex. reflexivity.
Qed.

(* ===================================================================== *)
(** * The fingerprint                                                     *)
(* ===================================================================== *)

Lemma read_window d pos :
  0 <= pos -> snd (read (FileObj d pos) 4096) = window d pos.
Proof. reflexivity. Qed.

(** Every [seek] is absolute, so what the loop hashes does not depend on
    where the previous [read] left the file position. *)
Lemma hash_loop_closed_form seek_positions :
  forall fp hash_result w,
    Forall (fun pos => 0 <= pos) seek_positions ->
    hash_loop fp seek_positions hash_result w
    = (w, Ok (hash_result
                ++ map (fun pos => hashlib.md5_hexdigest
                                     (window (f_data fp) pos))
                     seek_positions)%list).
Proof.
  induction seek_positions as [| pos rest IH]; intros fp acc w Hpos.
  - simpl. rewrite app_nil_r. reflexivity.
  - inversion Hpos as [| ? ? Hp Hrest]; subst.
    cbn [hash_loop]. unfold seek.
    destruct (pos <? 0) eqn:Hneg; [apply Z.ltb_lt in Hneg; lia |].
    erewrite bind_ok by reflexivity.
    cbn [read fst snd f_data f_pos].
    rewrite IH by exact Hrest. cbn [f_data map].
    rewrite <- app_assoc. reflexivity.
Qed.

Lemma open_rb_present videofile content w :
  files w !! videofile = Some content ->
  open_rb videofile w = (w, Ok (FileObj content 0)).
Proof. intros H. unfold open_rb. rewrite H. reflexivity. Qed.

(** [_compute_video_hash] on a file that exists: the size guard, then the
    four windows. *)
Lemma compute_video_hash_present videofile content w :
  files w !! videofile = Some content ->
  _compute_video_hash videofile w
  = (w,
     if Z.of_nat (length content) <? 12288 then
       Raise (InvalidFileError ("the video[" +:+ posixpath.basename videofile
                                  +:+ "] is too small"))
     else
       Ok (fingerprint_at content
             (shooter_offsets (Z.of_nat (length content))))).
Proof.
  intros Hfile. unfold _compute_video_hash.
  rewrite (bind_ok _ _ w w (FileObj content 0))
    by (apply open_rb_present, Hfile).
  unfold st_size. cbn [f_data].
  change (8192 + 4096) with 12288.
  destruct (Z.of_nat (length content) <? 12288) eqn:Hsmall; [reflexivity |].
  apply Z.ltb_ge in Hsmall.
  erewrite bind_ok.
  2:{ apply hash_loop_closed_form.
      repeat constructor; try lia.
      apply Z.mul_nonneg_nonneg; [| lia]. apply Z.div_pos; lia.
      apply Z.div_pos; lia. }
  unfold ret, fingerprint_at, shooter_offsets. cbn [f_data app].
  rewrite (Z.mul_comm (Z.of_nat (length content) / 3) 2). reflexivity.
Qed.

Lemma compute_video_hash_missing videofile w :
  files w !! videofile = None ->
  exists msg, _compute_video_hash videofile w = (w, Raise (OSError msg)).
Proof.
  intros Hfile. unfold _compute_video_hash, bind, open_rb.
  rewrite Hfile. eexists. reflexivity.
Qed.

(** The world is never changed by fingerprinting. *)
Lemma compute_video_hash_world videofile w :
  fst (_compute_video_hash videofile w) = w.
Proof.
  destruct (files w !! videofile) as [content |] eqn:Hfile.
  - rewrite (compute_video_hash_present _ _ _ Hfile). reflexivity.
  - destruct (compute_video_hash_missing _ _ Hfile) as [msg ->]. reflexivity.
Qed.

Lemma window_length content offset :
  0 <= offset -> offset + 4096 <= Z.of_nat (length content) ->
  length (window content offset) = 4096%nat.
Proof.
  intros H0 Hfit. unfold window. rewrite length_take, length_drop. lia.
Qed.

Lemma shooter_offsets_in_file T :
  12288 <= T ->
  Forall (fun o => 0 <= o /\ o + 4096 <= T) (shooter_offsets T).
Proof.
  intros HT. unfold shooter_offsets.
  repeat constructor; Z.to_euclidean_division_equations; lia.
Qed.

(** Where the two readings of the second offset agree. *)
Lemma spec_offsets_agree T :
  T mod 3 <> 2 -> spec_offsets T = shooter_offsets T.
Proof.
  intros Hmod. unfold spec_offsets, shooter_offsets.
  replace (2 * T / 3) with (2 * (T / 3));
    [reflexivity | Z.to_euclidean_division_equations; lia].
Qed.

Lemma spec_offsets_differ T :
  T mod 3 = 2 -> nth 1 (spec_offsets T) 0 = nth 1 (shooter_offsets T) 0 + 1.
Proof. intros Hmod. simpl. Z.to_euclidean_division_equations. lia. Qed.

Example fingerprint_of_12287_bytes :
  snd (_compute_video_hash "/v/short.mkv" sample_world)
  = Raise (InvalidFileError "the video[short.mkv] is too small").
Proof. vm_compute. reflexivity. Qed.

Example fingerprint_of_12288_bytes :
  snd (_compute_video_hash "/v/least.mkv" sample_world)
  = Ok ("620f0b67a91f7f74151bc5be745b7110;620f0b67a91f7f74151bc5be745b7110;"
        +:+ "620f0b67a91f7f74151bc5be745b7110;620f0b67a91f7f74151bc5be745b7110").
Proof. vm_compute. reflexivity. Qed.

(** C1, as stated, fails: on the 12290-byte video whose only non-zero byte
    is at position 8192 the second window hashed starts at
    2 * floor(12290 / 3) = 8192, not at floor(2 * 12290 / 3) = 8193, and the
    two fingerprints differ in their second digest. *)
Lemma fingerprint_spec_offsets_counterexample :
  files sample_world !! "/v/marked.mkv" = Some marked_video
  /\ Z.of_nat (length marked_video) = 12290
  /\ spec_offsets 12290 = [4096; 8193; 4096; 4098]
  /\ snd (_compute_video_hash "/v/marked.mkv" sample_world)
     = Ok ("620f0b67a91f7f74151bc5be745b7110;afe904447712c4f997a3e54cd9b3a4a7;"
           +:+ "620f0b67a91f7f74151bc5be745b7110;9a8db6ae9bc9466a173c3df280dbdde4")
  /\ fingerprint_at marked_video (spec_offsets 12290)
     = "620f0b67a91f7f74151bc5be745b7110;620f0b67a91f7f74151bc5be745b7110;"
       +:+ "620f0b67a91f7f74151bc5be745b7110;9a8db6ae9bc9466a173c3df280dbdde4"
  /\ snd (_compute_video_hash "/v/marked.mkv" sample_world)
     <> Ok (fingerprint_at marked_video
              (spec_offsets (Z.of_nat (length marked_video)))).
Proof.
  split; [reflexivity |]. split; [vm_compute; reflexivity |].
  split; [reflexivity |]. split; [vm_compute; reflexivity |].
  split; [vm_compute; reflexivity |].
  vm_compute. intros H. discriminate H.
Qed.

(** C1 (amended): for a file of [T >= 12288] bytes the fingerprint is the
    MD5 hex digests of the four windows at the absolute offsets 4096,
    2 * floor(T/3), floor(T/3) and T - 8192, taken and joined by [;] in that
    order; each window lies inside the file and has exactly 4096 bytes. *)
Theorem fingerprint_windows_in_order
    (w : World) (videofile : string) (content : list Byte.byte) :
  files w !! videofile = Some content ->
  12288 <= Z.of_nat (length content) ->
  _compute_video_hash videofile w
  = (w, Ok (str_join ";"
              (map (fun o => hashlib.md5_hexdigest (window content o))
                 [ 4096;
                   2 * (Z.of_nat (length content) / 3);
                   Z.of_nat (length content) / 3;
                   Z.of_nat (length content) - 8192 ])))
  /\ Forall (fun o => 0 <= o /\ o + 4096 <= Z.of_nat (length content)
                      /\ length (window content o) = 4096%nat)
       (shooter_offsets (Z.of_nat (length content))).
Proof.
  intros Hfile HT. split.
  - rewrite (compute_video_hash_present _ _ _ Hfile).
    destruct (Z.of_nat (length content) <? 12288) eqn:Hsmall;
      [apply Z.ltb_lt in Hsmall; lia | reflexivity].
  - eapply Forall_impl; [apply shooter_offsets_in_file, HT |].
    intros o [H0 Hfit]. split; [exact H0 |]. split; [exact Hfit |].
    apply window_length; assumption.
Qed.

Lemma fingerprint_windows_in_order_witness :
  files sample_world !! "/v/movie.mkv" = Some sample_video
  /\ 12288 <= Z.of_nat (length sample_video)
  /\ _compute_video_hash "/v/movie.mkv" sample_world
     = (sample_world,
        Ok (str_join ";"
              (map (fun o => hashlib.md5_hexdigest (window sample_video o))
                 [ 4096;
                   2 * (Z.of_nat (length sample_video) / 3);
                   Z.of_nat (length sample_video) / 3;
                   Z.of_nat (length sample_video) - 8192 ])))
  /\ Forall (fun o => 0 <= o /\ o + 4096 <= Z.of_nat (length sample_video)
                      /\ length (window sample_video o) = 4096%nat)
       (shooter_offsets (Z.of_nat (length sample_video))).
Proof.
  assert (H1 : files sample_world !! "/v/movie.mkv" = Some sample_video)
    by reflexivity.
  assert (H2 : 12288 <= Z.of_nat (length sample_video))
    by (vm_compute; intros H; discriminate H).
  split; [exact H1 |]. split; [exact H2 |].
  exact (fingerprint_windows_in_order sample_world "/v/movie.mkv"
           sample_video H1 H2).
Defined.

(** C3: fingerprinting an existing file of [T] bytes raises
    [InvalidFileError] exactly when [T < 12288], and raises nothing else;
    for [T >= 12288] it returns four strings of 32 lower-case hexadecimal
    characters joined by [;]. *)
Theorem fingerprint_size_guard
    (w : World) (videofile : string) (content : list Byte.byte) :
  files w !! videofile = Some content ->
  ((exists msg,
       snd (_compute_video_hash videofile w) = Raise (InvalidFileError msg))
   <-> Z.of_nat (length content) < 12288)
  /\ ((exists e, snd (_compute_video_hash videofile w) = Raise e)
      <-> Z.of_nat (length content) < 12288)
  /\ (12288 <= Z.of_nat (length content) ->
      exists h1 h2 h3 h4,
        snd (_compute_video_hash videofile w)
        = Ok (str_join ";" [h1; h2; h3; h4])
        /\ is_hexdigest h1 = true /\ is_hexdigest h2 = true
        /\ is_hexdigest h3 = true /\ is_hexdigest h4 = true).
Proof.
  intros Hfile. rewrite (compute_video_hash_present _ _ _ Hfile).
  cbn [snd].
  destruct (Z.of_nat (length content) <? 12288) eqn:Hsmall.
  - apply Z.ltb_lt in Hsmall.
    split; [split; [intros _; exact Hsmall | intros _; eexists; reflexivity] |].
    split; [split; [intros _; exact Hsmall | intros _; eexists; reflexivity] |].
    intros HT. lia.
  - apply Z.ltb_ge in Hsmall.
    split; [split; [intros [msg Hmsg]; discriminate Hmsg | lia] |].
    split; [split; [intros [msg Hmsg]; discriminate Hmsg | lia] |].
    intros _. unfold fingerprint_at, shooter_offsets. cbn [map].
    do 4 eexists. split; [reflexivity |].
    repeat split; apply md5_hexdigest_is_hexdigest.
Qed.

Lemma fingerprint_size_guard_witness :
  files sample_world !! "/v/least.mkv" = Some (zeros 12288)
  /\ ((exists msg,
         snd (_compute_video_hash "/v/least.mkv" sample_world)
         = Raise (InvalidFileError msg))
      <-> Z.of_nat (length (zeros 12288)) < 12288)
  /\ ((exists e,
         snd (_compute_video_hash "/v/least.mkv" sample_world) = Raise e)
      <-> Z.of_nat (length (zeros 12288)) < 12288)
  /\ (12288 <= Z.of_nat (length (zeros 12288)) ->
      exists h1 h2 h3 h4,
        snd (_compute_video_hash "/v/least.mkv" sample_world)
        = Ok (str_join ";" [h1; h2; h3; h4])
        /\ is_hexdigest h1 = true /\ is_hexdigest h2 = true
        /\ is_hexdigest h3 = true /\ is_hexdigest h4 = true).
Proof.
  assert (H1 : files sample_world !! "/v/least.mkv" = Some (zeros 12288))
    by reflexivity.
  split; [exact H1 |].
  exact (fingerprint_size_guard sample_world "/v/least.mkv" (zeros 12288) H1).
Defined.

(** C6: the fingerprint is a function of the bytes of the file alone.  Two
    files with the same bytes, at any two paths in any two worlds, get the
    same fingerprint (or are both refused), namely [video_fingerprint] of
    the bytes; and fingerprinting leaves the world as it was, so that
    fingerprinting the same file again gives the same outcome. *)
Theorem fingerprint_depends_on_content_only
    (w w' : World) (videofile videofile' : string)
    (content : list Byte.byte) :
  files w !! videofile = Some content ->
  files w' !! videofile' = Some content ->
  fingerprint_of (snd (_compute_video_hash videofile w))
  = video_fingerprint content
  /\ fingerprint_of (snd (_compute_video_hash videofile w))
     = fingerprint_of (snd (_compute_video_hash videofile' w'))
  /\ fst (_compute_video_hash videofile w) = w
  /\ snd (_compute_video_hash videofile (fst (_compute_video_hash videofile w)))
     = snd (_compute_video_hash videofile w).
Proof.
  intros Hfile Hfile'.
  assert (Hfp : forall v u, files u !! v = Some content ->
            fingerprint_of (snd (_compute_video_hash v u))
            = video_fingerprint content).
  { intros v u Hv. rewrite (compute_video_hash_present _ _ _ Hv).
    unfold video_fingerprint. cbn [snd].
    destruct (Z.of_nat (length content) <? 12288); reflexivity. }
  split; [apply Hfp, Hfile |].
  split; [rewrite (Hfp _ _ Hfile), (Hfp _ _ Hfile'); reflexivity |].
  split; [apply compute_video_hash_world |].
  rewrite compute_video_hash_world. reflexivity.
Qed.

Lemma fingerprint_depends_on_content_only_witness :
  files sample_world !! "/v/movie.mkv" = Some sample_video
  /\ files sample_world !! "/w/copy.mkv" = Some sample_video
  /\ fingerprint_of (snd (_compute_video_hash "/v/movie.mkv" sample_world))
     = video_fingerprint sample_video
  /\ fingerprint_of (snd (_compute_video_hash "/v/movie.mkv" sample_world))
     = fingerprint_of (snd (_compute_video_hash "/w/copy.mkv" sample_world))
  /\ fst (_compute_video_hash "/v/movie.mkv" sample_world) = sample_world
  /\ snd (_compute_video_hash "/v/movie.mkv"
            (fst (_compute_video_hash "/v/movie.mkv" sample_world)))
     = snd (_compute_video_hash "/v/movie.mkv" sample_world).
Proof.
  assert (H1 : files sample_world !! "/v/movie.mkv" = Some sample_video)
    by reflexivity.
  assert (H2 : files sample_world !! "/w/copy.mkv" = Some sample_video)
    by reflexivity.
  split; [exact H1 |]. split; [exact H2 |].
  exact (fingerprint_depends_on_content_only sample_world sample_world
           "/v/movie.mkv" "/w/copy.mkv" sample_video H1 H2).
Defined.

(* ===================================================================== *)
(** * The fold of the answers into records                                *)
(* ===================================================================== *)

Lemma visit_subinfos_flat videofile exts language subinfolist :
  forall st,
    fold_left (visit_subinfo videofile exts language) subinfolist st
    = fold_left (visit_item videofile exts language)
        (flat_map Files subinfolist) st.
Proof.
  induction subinfolist as [| s rest IH]; intros st; [reflexivity |].
  cbn [fold_left flat_map]. rewrite fold_left_app. apply IH.
Qed.

(** What one language adds: records of that language, of requested
    formats, named by [_gen_subname]; for each format at most one, and then
    with the link of the first entry of that format, unless the format was
    seen before. *)
Lemma visit_items_spec videofile exts language items :
  forall subinfos ext_set,
  exists new ext_set',
    fold_left (visit_item videofile exts language) items (subinfos, ext_set)
    = ((subinfos ++ new)%list, ext_set')
    /\ Forall (fun d => sub_language d = language
                        /\ sub_ext d ∈ exts
                        /\ sub_subname d
                           = _gen_subname videofile language (sub_ext d)) new
    /\ forall fmt,
         filter (fun d => sub_ext d = fmt) new
         = if bool_decide (fmt ∈ exts) && negb (bool_decide (fmt ∈ ext_set))
           then match find (fun item => String.eqb (lower (Ext item)) fmt)
                        items with
                | Some item =>
                    [ Subinfo (Link item) language
                        (_gen_subname videofile language fmt) fmt ]
                | None => []
                end
           else [].
Proof.
  induction items as [| item rest IH]; intros subinfos ext_set.
  - exists [], ext_set. cbn [fold_left]. rewrite app_nil_r.
    split; [reflexivity |]. split; [constructor |].
    intros fmt. destruct (_ && _); reflexivity.
  - cbn [fold_left]. unfold visit_item at 2.
    destruct (bool_decide (lower (Ext item) ∈ exts)) eqn:Hreq;
      [destruct (bool_decide (lower (Ext item) ∈ ext_set)) eqn:Hseen |];
      cbn [andb negb].
    + (* requested, already emitted *)
      destruct (IH subinfos ext_set) as (new & s' & Hfold & Hall & Hfilter).
      exists new, s'. split; [exact Hfold |]. split; [exact Hall |].
      intros fmt. rewrite Hfilter. cbn [find].
      destruct (String.eqb_spec (lower (Ext item)) fmt) as [<- |];
        [| reflexivity].
      rewrite Hseen. rewrite andb_false_r. reflexivity.
    + (* requested, first of its format *)
      apply bool_decide_eq_true_1 in Hreq.
      apply bool_decide_eq_false_1 in Hseen.
      destruct (IH (subinfos
                      ++ [ Subinfo (Link item) language
                             (_gen_subname videofile language
                                (lower (Ext item)))
                             (lower (Ext item)) ])%list
                   (ext_set ∪ {[ lower (Ext item) ]}))
        as (new & s' & Hfold & Hall & Hfilter).
      eexists (_ :: new), s'. split.
      { rewrite Hfold, <- app_assoc. reflexivity. }
      split.
      { constructor; [| exact Hall]. cbn. auto. }
      intros fmt. cbn [find]. rewrite filter_cons. cbn [sub_ext].
      rewrite Hfilter.
      destruct (String.eqb_spec (lower (Ext item)) fmt) as [<- | Hne].
      * rewrite decide_True by reflexivity.
        rewrite (bool_decide_eq_true_2 _ Hreq).
        rewrite (bool_decide_eq_false_2 _ Hseen).
        rewrite (bool_decide_eq_true_2
                   (lower (Ext item) ∈ ext_set ∪ {[ lower (Ext item) ]}))
          by set_solver.
        reflexivity.
      * rewrite decide_False by exact Hne.
        destruct (bool_decide (fmt ∈ exts)); [| reflexivity]. cbn [andb].
        destruct (decide (fmt ∈ ext_set)) as [Hin | Hout].
        -- rewrite (bool_decide_eq_true_2 _ Hin).
           rewrite (bool_decide_eq_true_2
                      (fmt ∈ ext_set ∪ {[ lower (Ext item) ]}))
             by set_solver.
           reflexivity.
        -- rewrite (bool_decide_eq_false_2 _ Hout).
           rewrite (bool_decide_eq_false_2
                      (fmt ∈ ext_set ∪ {[ lower (Ext item) ]})).
           ++ reflexivity.
           ++ intros Hu. apply elem_of_union in Hu as [Hu | Hu];
                [contradiction |].
              apply elem_of_singleton in Hu. congruence.
    + (* not requested *)
      destruct (IH subinfos ext_set) as (new & s' & Hfold & Hall & Hfilter).
      exists new, s'. split; [exact Hfold |]. split; [exact Hall |].
      intros fmt. rewrite Hfilter. cbn [find].
      destruct (String.eqb_spec (lower (Ext item)) fmt) as [<- |];
        [| reflexivity].
      rewrite Hreq. reflexivity.
Qed.

Lemma filter_language_ext (language l fmt : string) (new : list subinfo) :
  Forall (fun d => sub_language d = l) new ->
  filter (fun d => sub_language d = language /\ sub_ext d = fmt) new
  = if decide (l = language) then filter (fun d => sub_ext d = fmt) new
    else [].
Proof.
  induction 1 as [| d ds Hd _ IH].
  - destruct (decide (l = language)); reflexivity.
  - rewrite filter_cons, IH. destruct (decide (l = language)) as [Heq | Hne].
    + rewrite filter_cons.
      destruct (decide (sub_ext d = fmt)) as [He | He].
      * rewrite decide_True by (split; congruence). reflexivity.
      * rewrite decide_False by (intros [_ ?]; contradiction). reflexivity.
    + rewrite decide_False by (intros [? _]; congruence). reflexivity.
Qed.

Lemma dict_get_absent {V} (d : list (string * V)) k :
  k ∉ map fst d -> dict_get d k = None.
Proof.
  induction d as [| [k' v'] r IH]; intros Hout; [reflexivity |].
  cbn [dict_get]. destruct (String.eqb_spec k k') as [-> | Hne].
  - exfalso. apply Hout. cbn. left.
  - apply IH. intros Hin. apply Hout. cbn. right. exact Hin.
Qed.

(** The records of one language and one format that [normalize] adds. *)
Lemma visit_languages_spec videofile exts result :
  forall subinfos,
    NoDup (map fst result) ->
    exists new,
      fold_left (visit_language videofile exts) result subinfos
      = (subinfos ++ new)%list
      /\ Forall (fun d => sub_language d ∈ map fst result
                          /\ sub_ext d ∈ exts
                          /\ sub_subname d
                             = _gen_subname videofile (sub_language d)
                                 (sub_ext d)) new
      /\ forall language fmt,
           filter (fun d => sub_language d = language /\ sub_ext d = fmt) new
           = match dict_get result language with
             | Some subinfolist =>
                 if bool_decide (fmt ∈ exts) then
                   match first_match fmt subinfolist with
                   | Some item =>
                       [ Subinfo (Link item) language
                           (_gen_subname videofile language fmt) fmt ]
                   | None => []
                   end
                 else []
             | None => []
             end.
Proof.
  induction result as [| [l sl] rest IH]; intros subinfos Hnodup.
  - exists []. cbn [fold_left]. rewrite app_nil_r.
    split; [reflexivity |]. split; [constructor | reflexivity].
  - cbn [map fst] in Hnodup. apply NoDup_cons in Hnodup as [Hfresh Hnodup].
    cbn [fold_left]. unfold visit_language at 2.
    rewrite visit_subinfos_flat.
    destruct (visit_items_spec videofile exts l (flat_map Files sl) subinfos ∅)
      as (new1 & s' & Hfold1 & Hall1 & Hfilter1).
    rewrite Hfold1. cbn [fst].
    destruct (IH (subinfos ++ new1)%list Hnodup)
      as (new2 & Hfold2 & Hall2 & Hfilter2).
    exists (new1 ++ new2)%list. split.
    { rewrite Hfold2, app_assoc. reflexivity. }
    split.
    { apply Forall_app. split.
      - eapply Forall_impl; [exact Hall1 |].
        intros d (Hl & He & Hn). cbn [map fst].
        rewrite Hl. split; [left | split; [exact He | exact Hn]].
      - eapply Forall_impl; [exact Hall2 |].
        intros d (Hl & He & Hn). cbn [map fst].
        split; [right; exact Hl | split; [exact He | exact Hn]]. }
    intros language fmt. rewrite filter_app, Hfilter2.
    rewrite (filter_language_ext language l fmt new1)
      by (eapply Forall_impl; [exact Hall1 |]; intros d (Hl & _); exact Hl).
    cbn [dict_get].
    destruct (decide (l = language)) as [<- | Hne].
    + rewrite String.eqb_refl, (dict_get_absent rest l Hfresh), app_nil_r.
      rewrite Hfilter1.
      rewrite (bool_decide_eq_false_2 (fmt ∈ (∅ : gset string)))
        by set_solver.
      rewrite andb_true_r. reflexivity.
    + destruct (String.eqb_spec language l) as [-> |]; [contradiction |].
      reflexivity.
Qed.

(** [normalize] in closed form, by language and format. *)
Lemma normalize_filter videofile exts result language fmt :
  NoDup (map fst result) ->
  filter (fun d => sub_language d = language /\ sub_ext d = fmt)
    (normalize videofile exts result)
  = match dict_get result language with
    | Some subinfolist =>
        if bool_decide (fmt ∈ exts) then
          match first_match fmt subinfolist with
          | Some item =>
              [ Subinfo (Link item) language
                  (_gen_subname videofile language fmt) fmt ]
          | None => []
          end
        else []
    | None => []
    end.
Proof.
  intros Hnodup. unfold normalize.
  destruct (visit_languages_spec videofile exts result [] Hnodup)
    as (new & -> & _ & Hfilter).
  apply Hfilter.
Qed.

Lemma normalize_records videofile exts result d :
  NoDup (map fst result) ->
  d ∈ normalize videofile exts result ->
  sub_language d ∈ map fst result
  /\ sub_ext d ∈ exts
  /\ sub_subname d = _gen_subname videofile (sub_language d) (sub_ext d).
Proof.
  intros Hnodup Hin. unfold normalize in Hin.
  destruct (visit_languages_spec videofile exts result [] Hnodup)
    as (new & Hfold & Hall & _).
  rewrite Hfold in Hin. cbn [app] in Hin.
  rewrite Forall_forall in Hall. apply Hall. exact Hin.
Qed.

(** C5: in the records built from the answers, a language and a format
    occur together at most once; the record there is has the link of the
    first file entry, in response order, of that language's answer whose
    lower-cased extension is the format; and every record has a format that
    was asked for. *)
Theorem normalize_one_record_per_language_and_format
    (videofile : string) (exts : list string)
    (result : list (string * list subinfo_json)) (language fmt : string) :
  NoDup (map fst result) ->
  (length (filter (fun d => sub_language d = language /\ sub_ext d = fmt)
             (normalize videofile exts result)) <= 1)%nat
  /\ (forall d,
        d ∈ normalize videofile exts result ->
        sub_language d = language -> sub_ext d = fmt ->
        exists subinfolist item,
          dict_get result language = Some subinfolist
          /\ first_match fmt subinfolist = Some item
          /\ sub_link d = Link item)
  /\ (forall subinfolist item,
        dict_get result language = Some subinfolist ->
        fmt ∈ exts ->
        first_match fmt subinfolist = Some item ->
        exists d,
          d ∈ normalize videofile exts result
          /\ sub_language d = language /\ sub_ext d = fmt
          /\ sub_link d = Link item)
  /\ (forall d, d ∈ normalize videofile exts result -> sub_ext d ∈ exts).
Proof.
  intros Hnodup.
  pose proof (normalize_filter videofile exts result language fmt Hnodup)
    as Hfilter.
  split; [| split; [| split]].
  - rewrite Hfilter.
    destruct (dict_get result language) as [sl |]; [| cbn; lia].
    destruct (bool_decide (fmt ∈ exts)); [| cbn; lia].
    destruct (first_match fmt sl); cbn; lia.
  - intros d Hin Hl He.
    assert (Hd : d ∈ filter (fun d => sub_language d = language
                                      /\ sub_ext d = fmt)
                   (normalize videofile exts result))
      by (apply list_elem_of_filter; auto).
    rewrite Hfilter in Hd.
    destruct (dict_get result language) as [sl |]; [| inversion Hd].
    destruct (bool_decide (fmt ∈ exts)); [| inversion Hd].
    destruct (first_match fmt sl) as [item |] eqn:Hfirst; [| inversion Hd].
    apply list_elem_of_singleton in Hd. subst d.
    exists sl, item. auto.
  - intros sl item Hget Hreq Hfirst.
    rewrite Hget, (bool_decide_eq_true_2 _ Hreq), Hfirst in Hfilter.
    eexists. split.
    + eapply (proj1 (list_elem_of_filter _ _ _)).
      rewrite Hfilter. left.
    + cbn. auto.
  - intros d Hin.
    apply (normalize_records videofile exts result d Hnodup Hin).
Qed.

Lemma normalize_one_record_per_language_and_format_witness :
  NoDup (map fst [("Eng", sample_answer); ("Chn", [])])
  /\ (length (filter (fun d => sub_language d = "Eng" /\ sub_ext d = "srt")
                (normalize "/v/movie.mkv" ["srt"]
                   [("Eng", sample_answer); ("Chn", [])])) <= 1)%nat
  /\ (forall d,
        d ∈ normalize "/v/movie.mkv" ["srt"]
              [("Eng", sample_answer); ("Chn", [])] ->
        sub_language d = "Eng" -> sub_ext d = "srt" ->
        exists subinfolist item,
          dict_get [("Eng", sample_answer); ("Chn", [])] "Eng"
          = Some subinfolist
          /\ first_match "srt" subinfolist = Some item
          /\ sub_link d = Link item)
  /\ (forall subinfolist item,
        dict_get [("Eng", sample_answer); ("Chn", [])] "Eng"
        = Some subinfolist ->
        "srt" ∈ ["srt"] ->
        first_match "srt" subinfolist = Some item ->
        exists d,
          d ∈ normalize "/v/movie.mkv" ["srt"]
                [("Eng", sample_answer); ("Chn", [])]
          /\ sub_language d = "Eng" /\ sub_ext d = "srt"
          /\ sub_link d = Link item)
  /\ (forall d,
        d ∈ normalize "/v/movie.mkv" ["srt"]
              [("Eng", sample_answer); ("Chn", [])] ->
        sub_ext d ∈ ["srt"]).
Proof.
  assert (H1 : NoDup (map fst [("Eng", sample_answer); ("Chn", [])]))
    by (apply (bool_decide_unpack _); vm_compute; exact I).
  split; [exact H1 |].
  exact (normalize_one_record_per_language_and_format "/v/movie.mkv" ["srt"]
           [("Eng", sample_answer); ("Chn", [])] "Eng" "srt" H1).
Defined.

(* ===================================================================== *)
(** * The queries                                                         *)
(* ===================================================================== *)

Lemma dict_set_keys {V} (d : list (string * V)) k v :
  map fst (dict_set d k v)
  = if bool_decide (k ∈ map fst d) then map fst d
    else (map fst d ++ [k])%list.
Proof.
  induction d as [| [k' v'] r IH]; [reflexivity |].
  cbn [dict_set map fst]. destruct (String.eqb_spec k k') as [-> | Hne].
  - rewrite bool_decide_eq_true_2 by left. reflexivity.
  - cbn [map fst]. rewrite IH.
    destruct (decide (k ∈ map fst r)) as [Hin | Hout].
    + rewrite (bool_decide_eq_true_2 _ Hin).
      rewrite bool_decide_eq_true_2 by (right; exact Hin). reflexivity.
    + rewrite (bool_decide_eq_false_2 _ Hout).
      rewrite bool_decide_eq_false_2; [reflexivity |].
      intros Hin. apply elem_of_cons in Hin as [? | ?]; contradiction.
Qed.

Lemma dict_set_nodup {V} (d : list (string * V)) k v :
  NoDup (map fst d) -> NoDup (map fst (dict_set d k v)).
Proof.
  intros Hnodup. rewrite dict_set_keys.
  destruct (decide (k ∈ map fst d)) as [Hin | Hout].
  - rewrite (bool_decide_eq_true_2 _ Hin). exact Hnodup.
  - rewrite (bool_decide_eq_false_2 _ Hout).
    apply NoDup_app. split; [exact Hnodup |]. split.
    + intros x Hx Hk. apply list_elem_of_singleton in Hk. subst x.
      contradiction.
    + apply NoDup_singleton.
Qed.

Lemma dict_set_key_in {V} (d : list (string * V)) k v x :
  x ∈ map fst (dict_set d k v) -> x ∈ map fst d \/ x = k.
Proof.
  rewrite dict_set_keys. destruct (bool_decide (k ∈ map fst d)).
  - auto.
  - intros Hin. apply elem_of_app in Hin as [Hin | Hin]; [auto |].
    apply list_elem_of_singleton in Hin. auto.
Qed.

(** One turn of the loop: the request is logged whatever happens; an
    exception of the transport or of the decoder becomes a
    [SearchingSubinfoError] with the same message. *)
Lemma query_step (p : payload) w :
  try_except (session_post_json API_URL p)
    (fun e => raise (SearchingSubinfoError (exn_str e))) w
  = match remote w (sent w) (Request API_URL p) with
    | inl msg =>
        (after_post w (Request API_URL p), Raise (SearchingSubinfoError msg))
    | inr js => (after_post w (Request API_URL p), Ok js)
    end.
Proof.
  unfold try_except, session_post_json, after_post.
  destruct (remote w (sent w) (Request API_URL p)); reflexivity.
Qed.

(** The keys of the answers are distinct, and are languages asked for. *)
Lemma query_loop_ok_keys languages :
  forall p result w w' result',
    query_loop languages p result w = (w', Ok result') ->
    NoDup (map fst result) ->
    NoDup (map fst result')
    /\ forall k, k ∈ map fst result' -> k ∈ map fst result \/ k ∈ languages.
Proof.
  induction languages as [| language rest IH];
    intros p result w w' result' Hrun Hnodup.
  - cbn in Hrun. injection Hrun as <- <-. auto.
  - cbn [query_loop] in Hrun. unfold bind in Hrun.
    rewrite query_step in Hrun.
    destruct (remote w (sent w) _) as [msg | js]; [discriminate Hrun |].
    apply IH in Hrun as [Hnd Hkeys]; [| apply dict_set_nodup, Hnodup].
    split; [exact Hnd |].
    intros k Hk. destruct (Hkeys k Hk) as [Hin | Hin].
    + apply dict_set_key_in in Hin as [Hin | ->]; [auto | right; left].
    + right. right. exact Hin.
Qed.

(** What the loop leaves in the world: the same files, registry and
    service, and a log extended by one request per language tried, each for
    the language of its turn and otherwise equal to the payload. *)
Lemma query_loop_world languages :
  forall p result w,
    files (fst (query_loop languages p result w)) = files w
    /\ abspath (fst (query_loop languages p result w)) = abspath w
    /\ remote (fst (query_loop languages p result w)) = remote w
    /\ exists new,
         sent (fst (query_loop languages p result w)) = (sent w ++ new)%list
         /\ new = map (fun l => Request API_URL
                                  (Payload (filehash p) (pathinfo p)
                                     (format p) l))
                    (take (length new) languages)
         /\ (forall r, snd (query_loop languages p result w) = Ok r ->
                       length new = length languages).
Proof.
  induction languages as [| language rest IH]; intros p result w.
  - cbn. repeat split; try reflexivity.
    exists []. rewrite app_nil_r. auto.
  - cbn [query_loop]. unfold bind. rewrite query_step.
    destruct (remote w (sent w) _) as [msg | js].
    + cbn [fst snd after_post files abspath remote sent].
      repeat split; try reflexivity.
      eexists [_]. split; [reflexivity |]. split; [reflexivity |].
      intros r Hr. discriminate Hr.
    + match goal with
      | |- context [query_loop rest ?p' ?res' ?w1] =>
          destruct (IH p' res' w1) as (Hf & Ha & Hr & new & Hs & Hnew & Hlen)
      end.
      cbn [filehash pathinfo format] in *.
      rewrite Hf, Ha, Hr. cbn [after_post files abspath remote].
      repeat split; try reflexivity.
      eexists (_ :: new). split.
      { rewrite Hs. cbn [after_post sent]. rewrite <- app_assoc. reflexivity. }
      split.
      { cbn [length take map]. f_equal. exact Hnew. }
      intros r Hok. cbn [length]. f_equal. apply (Hlen r Hok).
Qed.

(** A request that fails ends the loop there, with
    [SearchingSubinfoError] carrying the message of the failure. *)
Lemma query_loop_failed_request languages :
  forall p result w pre req post msg,
    sent (fst (query_loop languages p result w))
    = (sent w ++ pre ++ req :: post)%list ->
    remote w (sent w ++ pre) req = inl msg ->
    snd (query_loop languages p result w) = Raise (SearchingSubinfoError msg)
    /\ post = [].
Proof.
  induction languages as [| language rest IH];
    intros p result w pre req post msg Hsent Hfail.
  - cbn in Hsent. exfalso.
    apply (f_equal length) in Hsent. rewrite !length_app in Hsent.
    cbn in Hsent. lia.
  - cbn [query_loop] in *. unfold bind in *. rewrite query_step in *.
    destruct (remote w (sent w) _) as [m | js] eqn:Hstep.
    + cbn [fst snd after_post sent] in *.
      apply app_inv_head in Hsent.
      destruct pre as [| r0 pre].
      * cbn in Hsent. injection Hsent as <- <-.
        rewrite app_nil_r in Hfail. rewrite Hstep in Hfail.
        injection Hfail as <-. auto.
      * cbn in Hsent. injection Hsent as _ Hsent.
        destruct pre; discriminate Hsent.
    + match type of Hsent with
      | context [query_loop rest ?p' ?res' ?w1] =>
          specialize (IH p' res' w1)
      end.
      destruct pre as [| r0 pre].
      * exfalso.
        match type of Hsent with
        | context [query_loop rest ?p' ?res' ?w1] =>
            destruct (query_loop_world rest p' res' w1)
              as (_ & _ & _ & new & Hs & _)
        end.
        rewrite Hs in Hsent. cbn [after_post sent] in Hsent.
        rewrite <- app_assoc in Hsent. apply app_inv_head in Hsent.
        cbn in Hsent. injection Hsent as Hreq _.
        rewrite app_nil_r in Hfail. rewrite Hreq in Hstep.
        rewrite Hstep in Hfail. discriminate Hfail.
      * match type of Hsent with
        | context [query_loop rest ?p' ?res' ?w1] =>
            destruct (query_loop_world rest p' res' w1)
              as (_ & _ & _ & new & Hs & _)
        end.
        assert (Hr0 : r0 = Request API_URL
                             (Payload (filehash p) (pathinfo p) (format p)
                                language)).
        { rewrite Hs in Hsent. cbn [after_post sent] in Hsent.
          rewrite <- app_assoc in Hsent. apply app_inv_head in Hsent.
          cbn in Hsent. injection Hsent as Hreq _. symmetry. exact Hreq. }
        subst r0.
        apply (IH pre req post msg).
        -- rewrite Hsent. cbn [after_post sent].
           rewrite <- app_assoc. reflexivity.
        -- cbn [after_post sent remote]. rewrite <- app_assoc. exact Hfail.
Qed.

(* ===================================================================== *)
(** * [search_subs] as a whole                                            *)
(* ===================================================================== *)

Lemma check_languages_cases cls languages w :
  (_check_languages cls languages w = (w, Ok tt)
   /\ Forall (fun l => l ∈ SUPPORT_LANGUAGES cls) languages)
  \/ exists msg,
       _check_languages cls languages w = (w, Raise (LanguageError msg)).
Proof.
  destruct (decide (Forall (fun l => l ∈ SUPPORT_LANGUAGES cls) languages))
    as [Hall | Hnot].
  - left. split; [apply check_languages_pass, Hall | exact Hall].
  - right. apply not_Forall_Exists in Hnot; [| intros x; apply _].
    apply Exists_exists in Hnot as (lang & Hin & Hbad).
    apply (check_languages_fail cls languages lang w Hin Hbad).
Qed.

Lemma check_exts_cases cls exts w :
  (_check_exts cls exts w = (w, Ok tt)
   /\ Forall (fun e => e ∈ SUPPORT_EXTS cls) exts)
  \/ exists msg, _check_exts cls exts w = (w, Raise (ExtError msg)).
Proof.
  destruct (decide (Forall (fun e => e ∈ SUPPORT_EXTS cls) exts))
    as [Hall | Hnot].
  - left. split; [apply check_exts_pass, Hall | exact Hall].
  - right. apply not_Forall_Exists in Hnot; [| intros x; apply _].
    apply Exists_exists in Hnot as (ext & Hin & Hbad).
    apply (check_exts_fail cls exts ext w Hin Hbad).
Qed.

(** A call either stops before any request, in the world it started in, or
    passes both checks, fingerprints the video and is the query loop
    followed by [normalize]. *)
Lemma search_subs_cases self videofile languages exts w :
  (exists e, search_subs self videofile languages exts w = (w, Raise e))
  \/ exists h,
       Forall (fun l => l ∈ SUPPORT_LANGUAGES self)
         (requested_languages self languages)
       /\ Forall (fun e => e ∈ SUPPORT_EXTS self) (requested_exts self exts)
       /\ _compute_video_hash (abspath w videofile) w = (w, Ok h)
       /\ search_subs self videofile languages exts w
          = (fst (query_loop (requested_languages self languages)
                    (Payload h (snd (posixpath.split (abspath w videofile)))
                       "json" "") [] w),
             match snd (query_loop (requested_languages self languages)
                          (Payload h
                             (snd (posixpath.split (abspath w videofile)))
                             "json" "") [] w) with
             | Ok result =>
                 Ok (normalize (abspath w videofile)
                       (requested_exts self exts) result)
             | Raise e => Raise e
             end).
Proof.
  unfold search_subs.
  rewrite (bind_ok _ _ w w (abspath w videofile)) by reflexivity.
  set (v := abspath w videofile).
  assert (Hlangs :
    (exists e,
        match languages with
        | PyNone =>
            match SUPPORT_LANGUAGES self with
            | l0 :: _ => ret [l0]
            | [] => raise (IndexError "list index out of range")
            end
        | PyStr s => ret [s]
        | PyList l => ret l
        end w = (w, Raise e))
    \/ match languages with
       | PyNone =>
           match SUPPORT_LANGUAGES self with
           | l0 :: _ => ret [l0]
           | [] => raise (IndexError "list index out of range")
           end
       | PyStr s => ret [s]
       | PyList l => ret l
       end w = (w, Ok (requested_languages self languages))).
  { destruct languages as [| s | l]; cbn [requested_languages];
      [destruct (SUPPORT_LANGUAGES self) |..];
      first [left; eexists; reflexivity | right; reflexivity]. }
  destruct Hlangs as [[e He] | Hlangs].
  { left. exists e. apply bind_raise. exact He. }
  rewrite (bind_ok _ _ w w _ Hlangs).
  set (langs := requested_languages self languages).
  destruct (check_languages_cases self langs w) as [[Hck Hall] | [msg Hck]].
  2:{ left. eexists. apply bind_raise. exact Hck. }
  rewrite (bind_ok _ _ w w tt) by exact Hck.
  rewrite (bind_ok _ _ w w (requested_exts self exts))
    by (destruct exts; reflexivity).
  set (fmts := requested_exts self exts).
  destruct (check_exts_cases self fmts w) as [[Hce Halle] | [msg Hce]].
  2:{ left. eexists. apply bind_raise. exact Hce. }
  rewrite (bind_ok _ _ w w tt) by exact Hce.
  pose proof (compute_video_hash_world v w) as Hworld.
  destruct (_compute_video_hash v w) as [w1 [h | e]] eqn:Hhash;
    cbn [fst] in Hworld; subst w1.
  2:{ left. exists e. apply bind_raise. exact Hhash. }
  rewrite (bind_ok _ _ w w h) by exact Hhash.
  right. exists h.
  split; [exact Hall |]. split; [exact Halle |]. split; [reflexivity |].
  destruct (posixpath.split v) as [root basename]. cbn [snd].
  unfold bind, ret.
  destruct (query_loop langs (Payload h basename "json" "") [] w)
    as [w' [result | e]]; reflexivity.
Qed.

(** A call that returns passed both checks, fingerprinted the video, got
    an answer for every language, and returns [normalize] of the answers. *)
Lemma search_subs_ok_inv self videofile languages exts w subinfos :
  snd (search_subs self videofile languages exts w) = Ok subinfos ->
  exists h result,
    Forall (fun l => l ∈ SUPPORT_LANGUAGES self)
      (requested_languages self languages)
    /\ Forall (fun e => e ∈ SUPPORT_EXTS self) (requested_exts self exts)
    /\ _compute_video_hash (abspath w videofile) w = (w, Ok h)
    /\ query_loop (requested_languages self languages)
         (Payload h (snd (posixpath.split (abspath w videofile))) "json" "")
         [] w
       = (fst (search_subs self videofile languages exts w), Ok result)
    /\ subinfos
       = normalize (abspath w videofile) (requested_exts self exts) result.
Proof.
  intros Hrun.
  destruct (search_subs_cases self videofile languages exts w)
    as [[e He] | (h & Hlangs & Hfmts & Hhash & Heq)].
  { rewrite He in Hrun. discriminate Hrun. }
  rewrite Heq in *. cbn [fst snd] in *.
  destruct (query_loop (requested_languages self languages) _ [] w)
    as [w1 [result | e]] eqn:Hloop;
    cbn [fst snd] in *; [| discriminate Hrun].
  injection Hrun as <-.
  exists h, result. auto.
Qed.

(** What every record of a call that returns looks like. *)
Lemma search_subs_records self videofile languages exts w subinfos d :
  snd (search_subs self videofile languages exts w) = Ok subinfos ->
  d ∈ subinfos ->
  sub_language d ∈ SUPPORT_LANGUAGES self
  /\ sub_ext d ∈ SUPPORT_EXTS self
  /\ sub_subname d
     = _gen_subname (abspath w videofile) (sub_language d) (sub_ext d).
Proof.
  intros Hrun Hd.
  destruct (search_subs_ok_inv self videofile languages exts w subinfos Hrun)
    as (h & result & Hlangs & Hfmts & _ & Hloop & ->).
  destruct (query_loop_ok_keys _ _ _ _ _ _ Hloop (NoDup_nil_2 (A:=string)))
    as [Hnodup Hkeys].
  destruct (normalize_records _ _ _ _ Hnodup Hd) as (Hl & He & Hname).
  rewrite Forall_forall in Hlangs, Hfmts.
  split; [| split; [auto | exact Hname]].
  destruct (Hkeys _ Hl) as [Hin | Hin]; [inversion Hin | auto].
Qed.

(** On success one request was posted per language asked for, in order. *)
Lemma search_subs_ok_posts self videofile languages exts w subinfos :
  snd (search_subs self videofile languages exts w) = Ok subinfos ->
  map (fun r => lang (data r))
    (posted w (fst (search_subs self videofile languages exts w)))
  = requested_languages self languages.
Proof.
  intros Hrun.
  destruct (search_subs_ok_inv self videofile languages exts w subinfos Hrun)
    as (h & result & _ & _ & _ & Hloop & _).
  match type of Hloop with
  | query_loop ?ls ?p ?res ?w0 = _ =>
      destruct (query_loop_world ls p res w0)
        as (_ & _ & _ & new & Hs & Hnew & Hlen)
  end.
  rewrite Hloop in Hs, Hlen. cbn [fst snd] in Hs, Hlen.
  unfold posted. rewrite Hs, drop_app_length.
  specialize (Hlen result eq_refl).
  rewrite Hnew, Hlen, firstn_all, map_map. cbn [data lang].
  apply map_id.
Qed.

(** C8: every record of a call that returns has a language among
    [SUPPORT_LANGUAGES] and a format among [SUPPORT_EXTS] of the searcher. *)
Theorem returned_records_within_capabilities
    (self : pyclass) (videofile : string) (languages exts : pyarg)
    (w : World) (subinfos : list subinfo) :
  snd (search_subs self videofile languages exts w) = Ok subinfos ->
  forall d, d ∈ subinfos ->
    sub_language d ∈ SUPPORT_LANGUAGES self
    /\ sub_ext d ∈ SUPPORT_EXTS self.
Proof.
  intros Hrun d Hd.
  destruct (search_subs_records _ _ _ _ _ _ _ Hrun Hd) as (Hl & He & _).
  auto.
Qed.

Lemma returned_records_within_capabilities_witness :
  snd (search_subs ShooterSubSearcher "movie.mkv" (PyStr "Eng") PyNone
         sample_world)
  = Ok [ Subinfo "http://x/1" "Eng" "/v/movie.Eng.srt" "srt";
         Subinfo "http://x/2" "Eng" "/v/movie.Eng.ass" "ass" ]
  /\ forall d,
       d ∈ [ Subinfo "http://x/1" "Eng" "/v/movie.Eng.srt" "srt";
             Subinfo "http://x/2" "Eng" "/v/movie.Eng.ass" "ass" ] ->
       sub_language d ∈ SUPPORT_LANGUAGES ShooterSubSearcher
       /\ sub_ext d ∈ SUPPORT_EXTS ShooterSubSearcher.
Proof.
  assert (H1 :
    snd (search_subs ShooterSubSearcher "movie.mkv" (PyStr "Eng") PyNone
           sample_world)
    = Ok [ Subinfo "http://x/1" "Eng" "/v/movie.Eng.srt" "srt";
           Subinfo "http://x/2" "Eng" "/v/movie.Eng.ass" "ass" ])
    by (vm_compute; reflexivity).
  split; [exact H1 |].
  exact (returned_records_within_capabilities ShooterSubSearcher "movie.mkv"
           (PyStr "Eng") PyNone sample_world _ H1).
Defined.

(** C9: when a request posted during the call fails (the transport or the
    JSON decoder raises, with message [msg]), the call raises
    [SearchingSubinfoError] with that message; it returns no records, and
    posts no further request. *)
Theorem failed_query_aborts_search
    (self : pyclass) (videofile : string) (languages exts : pyarg)
    (w : World) (pre post : list request) (req : request) (msg : string) :
  sent (fst (search_subs self videofile languages exts w))
  = (sent w ++ pre ++ req :: post)%list ->
  remote w (sent w ++ pre) req = inl msg ->
  snd (search_subs self videofile languages exts w)
  = Raise (SearchingSubinfoError msg)
  /\ post = [].
Proof.
  intros Hsent Hfail.
  destruct (search_subs_cases self videofile languages exts w)
    as [[e He] | (h & _ & _ & _ & Heq)].
  - exfalso. rewrite He in Hsent. cbn [fst] in Hsent.
    apply (f_equal length) in Hsent. rewrite !length_app in Hsent.
    cbn in Hsent. lia.
  - rewrite Heq in *. cbn [fst snd] in *.
    destruct (query_loop_failed_request _ _ _ _ _ _ _ _ Hsent Hfail)
      as [-> ->].
    auto.
Qed.

Lemma failed_query_aborts_search_witness :
  sent (fst (search_subs ShooterSubSearcher "movie.mkv"
               (PyList ["Eng"; "Chn"; "Eng"]) PyNone sample_world))
  = (sent sample_world
       ++ [ Request API_URL
              (Payload (fingerprint_at sample_video (shooter_offsets 20000))
                 "movie.mkv" "json" "Eng") ]
       ++ Request API_URL
            (Payload (fingerprint_at sample_video (shooter_offsets 20000))
               "movie.mkv" "json" "Chn") :: [])%list
  /\ remote sample_world
       (sent sample_world
          ++ [ Request API_URL
                 (Payload
                    (fingerprint_at sample_video (shooter_offsets 20000))
                    "movie.mkv" "json" "Eng") ])
       (Request API_URL
          (Payload (fingerprint_at sample_video (shooter_offsets 20000))
             "movie.mkv" "json" "Chn"))
     = inl "connection reset"
  /\ snd (search_subs ShooterSubSearcher "movie.mkv"
            (PyList ["Eng"; "Chn"; "Eng"]) PyNone sample_world)
     = Raise (SearchingSubinfoError "connection reset")
  /\ @nil request = [].
Proof.
  assert (H1 :
    sent (fst (search_subs ShooterSubSearcher "movie.mkv"
                 (PyList ["Eng"; "Chn"; "Eng"]) PyNone sample_world))
    = (sent sample_world
         ++ [ Request API_URL
                (Payload (fingerprint_at sample_video (shooter_offsets 20000))
                   "movie.mkv" "json" "Eng") ]
         ++ Request API_URL
              (Payload (fingerprint_at sample_video (shooter_offsets 20000))
                 "movie.mkv" "json" "Chn") :: [])%list)
    by (vm_compute; reflexivity).
  assert (H2 :
    remote sample_world
      (sent sample_world
         ++ [ Request API_URL
                (Payload
                   (fingerprint_at sample_video (shooter_offsets 20000))
                   "movie.mkv" "json" "Eng") ])
      (Request API_URL
         (Payload (fingerprint_at sample_video (shooter_offsets 20000))
            "movie.mkv" "json" "Chn"))
    = inl "connection reset")
    by reflexivity.
  split; [exact H1 |]. split; [exact H2 |].
  exact (failed_query_aborts_search ShooterSubSearcher "movie.mkv"
           (PyList ["Eng"; "Chn"; "Eng"]) PyNone sample_world _ _ _ _ H1 H2).
Defined.

(** The same, read from the side of the caller: once both checks pass and
    the video is fingerprinted, a language asked for whose request the
    service refuses whenever it is posted makes the call raise
    [SearchingSubinfoError]. *)
Lemma query_loop_failing_language languages :
  forall p result w language,
    language ∈ languages ->
    (forall history, exists msg,
        remote w history
          (Request API_URL
             (Payload (filehash p) (pathinfo p) (format p) language))
        = inl msg) ->
    exists msg,
      snd (query_loop languages p result w)
      = Raise (SearchingSubinfoError msg).
Proof.
  induction languages as [| l rest IH]; intros p result w language Hin Hfail;
    [inversion Hin |].
  cbn [query_loop]. unfold bind. rewrite query_step.
  destruct (remote w (sent w) _) as [msg | js] eqn:Hstep.
  - exists msg. reflexivity.
  - apply elem_of_cons in Hin as [-> | Hin].
    + destruct (Hfail (sent w)) as [msg Hmsg].
      rewrite Hmsg in Hstep. discriminate Hstep.
    + apply (IH _ _ _ language Hin). exact Hfail.
Qed.

Lemma search_subs_query_phase self videofile languages exts w h :
  requested_languages self languages <> [] ->
  Forall (fun l => l ∈ SUPPORT_LANGUAGES self)
    (requested_languages self languages) ->
  Forall (fun e => e ∈ SUPPORT_EXTS self) (requested_exts self exts) ->
  _compute_video_hash (abspath w videofile) w = (w, Ok h) ->
  search_subs self videofile languages exts w
  = (fst (query_loop (requested_languages self languages)
            (Payload h (snd (posixpath.split (abspath w videofile)))
               "json" "") [] w),
     match snd (query_loop (requested_languages self languages)
                  (Payload h (snd (posixpath.split (abspath w videofile)))
                     "json" "") [] w) with
     | Ok result =>
         Ok (normalize (abspath w videofile) (requested_exts self exts)
               result)
     | Raise e => Raise e
     end).
Proof.
  intros Hne Hlangs Hexts Hhash. unfold search_subs.
  rewrite (bind_ok _ _ w w (abspath w videofile)) by reflexivity.
  rewrite (bind_ok _ _ w w (requested_languages self languages)).
  2:{ destruct languages as [| s | l]; cbn [requested_languages] in *;
        [destruct (SUPPORT_LANGUAGES self); [contradiction |] |..];
        reflexivity. }
  rewrite (bind_ok _ _ w w tt) by (apply check_languages_pass, Hlangs).
  rewrite (bind_ok _ _ w w (requested_exts self exts))
    by (destruct exts; reflexivity).
  rewrite (bind_ok _ _ w w tt) by (apply check_exts_pass, Hexts).
  rewrite (bind_ok _ _ w w h) by exact Hhash.
  destruct (posixpath.split (abspath w videofile)) as [root basename].
  cbn [snd]. unfold bind, ret.
  destruct (query_loop _ (Payload h basename "json" "") [] w)
    as [w' [result | e]]; reflexivity.
Qed.

Lemma search_subs_failing_language
    self videofile languages exts w h language :
  Forall (fun l => l ∈ SUPPORT_LANGUAGES self)
    (requested_languages self languages) ->
  Forall (fun e => e ∈ SUPPORT_EXTS self) (requested_exts self exts) ->
  _compute_video_hash (abspath w videofile) w = (w, Ok h) ->
  language ∈ requested_languages self languages ->
  (forall history, exists msg,
      remote w history
        (Request API_URL
           (Payload h (snd (posixpath.split (abspath w videofile)))
              "json" language))
      = inl msg) ->
  exists msg,
    snd (search_subs self videofile languages exts w)
    = Raise (SearchingSubinfoError msg).
Proof.
  intros Hlangs Hexts Hhash Hin Hfail.
  rewrite (search_subs_query_phase _ _ _ _ _ h); try assumption.
  2:{ intros Hnil. rewrite Hnil in Hin. inversion Hin. }
  cbn [snd].
  destruct (query_loop_failing_language
              (requested_languages self languages)
              (Payload h (snd (posixpath.split (abspath w videofile)))
                 "json" "")
              [] w language Hin Hfail) as [msg ->].
  exists msg. reflexivity.
Qed.

(** In what a call returns, too, a language and a format occur together at
    most once, even when the caller names a language twice. *)
Lemma search_subs_one_record_per_pair
    self videofile languages exts w subinfos language fmt :
  snd (search_subs self videofile languages exts w) = Ok subinfos ->
  (length (filter (fun d => sub_language d = language /\ sub_ext d = fmt)
             subinfos) <= 1)%nat.
Proof.
  intros Hrun.
  destruct (search_subs_ok_inv self videofile languages exts w subinfos Hrun)
    as (h & result & _ & _ & _ & Hloop & ->).
  destruct (query_loop_ok_keys _ _ _ _ _ _ Hloop (NoDup_nil_2 (A:=string)))
    as [Hnodup _].
  rewrite (normalize_filter _ _ _ language fmt Hnodup).
  destruct (dict_get result language) as [sl |]; [| cbn; lia].
  destruct (bool_decide (fmt ∈ requested_exts self exts)); [| cbn; lia].
  destruct (first_match fmt sl); cbn; lia.
Qed.

(* ===================================================================== *)
(** * Paths                                                               *)
(* ===================================================================== *)

Section Rfind.
Variable c : ascii.

Lemma rfind_lower_bound p : -1 <= posixpath.rfind c p.
Proof.
  induction p as [| x r IH]; cbn [posixpath.rfind]; [lia |].
  destruct (0 <=? posixpath.rfind c r) eqn:Hi; [lia |].
  destruct (Ascii.eqb x c); lia.
Qed.

Lemma rfind_absent p : c ∉ p -> posixpath.rfind c p = -1.
Proof.
  induction p as [| x r IH]; intros Hout; [reflexivity |].
  cbn [posixpath.rfind]. rewrite IH by (intros ?; apply Hout; right; done).
  cbn. destruct (Ascii.eqb_spec x c) as [-> |]; [| reflexivity].
  exfalso. apply Hout. left.
Qed.

Lemma rfind_negative_absent p : posixpath.rfind c p < 0 -> c ∉ p.
Proof.
  induction p as [| x r IH]; intros Hneg Hin; [inversion Hin |].
  cbn [posixpath.rfind] in Hneg.
  destruct (0 <=? posixpath.rfind c r) eqn:Hi.
  - apply Z.leb_le in Hi. lia.
  - apply Z.leb_gt in Hi.
    destruct (Ascii.eqb_spec x c) as [-> | Hne]; [lia |].
    apply elem_of_cons in Hin as [-> | Hin]; [contradiction |].
    apply (IH Hi Hin).
Qed.

Lemma rfind_last_occurrence a b :
  c ∉ b -> posixpath.rfind c (a ++ c :: b) = Z.of_nat (length a).
Proof.
  intros Hout. induction a as [| x a IH].
  - cbn [app posixpath.rfind length]. rewrite (rfind_absent b Hout).
    cbn. rewrite Ascii.eqb_refl. reflexivity.
  - cbn [app posixpath.rfind length]. rewrite IH.
    destruct (0 <=? Z.of_nat (length a)) eqn:Hi; [lia |].
    apply Z.leb_gt in Hi. lia.
Qed.

Lemma rfind_tail_free p :
  c ∉ drop (Z.to_nat (posixpath.rfind c p + 1)) p.
Proof.
  induction p as [| x r IH]; [cbn; inversion 1 |].
  cbn [posixpath.rfind].
  pose proof (rfind_lower_bound r) as Hlb.
  destruct (0 <=? posixpath.rfind c r) eqn:Hi.
  - apply Z.leb_le in Hi.
    replace (Z.to_nat (posixpath.rfind c r + 1 + 1))
      with (S (Z.to_nat (posixpath.rfind c r + 1))) by lia.
    exact IH.
  - apply Z.leb_gt in Hi.
    destruct (Ascii.eqb_spec x c) as [-> | Hne].
    + cbn. apply rfind_negative_absent. exact Hi.
    + cbn. intros Hin. apply elem_of_cons in Hin as [-> | Hin];
        [contradiction |].
      apply (rfind_negative_absent r Hi Hin).
Qed.
End Rfind.

Lemma endswith_sep_cons x y r :
  posixpath.endswith_sep (x :: y :: r) = posixpath.endswith_sep (y :: r).
Proof. reflexivity. Qed.

Lemma rstrip_not_endswith h :
  posixpath.endswith_sep (posixpath.rstrip posixpath.sep h) = false.
Proof.
  induction h as [| x r IH]; [reflexivity |].
  cbn [posixpath.rstrip].
  destruct (posixpath.rstrip posixpath.sep r) as [| y r'] eqn:Hr.
  - destruct (Ascii.eqb x posixpath.sep) eqn:Hx; [reflexivity |].
    unfold posixpath.endswith_sep. cbn. exact Hx.
  - rewrite endswith_sep_cons. exact IH.
Qed.

Lemma rstrip_snoc_sep p :
  posixpath.rstrip posixpath.sep (p ++ [posixpath.sep])
  = posixpath.rstrip posixpath.sep p.
Proof.
  induction p as [| x r IH]; [reflexivity |].
  cbn [app posixpath.rstrip]. rewrite IH. reflexivity.
Qed.

Lemma rstrip_id p :
  posixpath.endswith_sep p = false -> posixpath.rstrip posixpath.sep p = p.
Proof.
  induction p as [| x r IH]; intros Hend; [reflexivity |].
  cbn [posixpath.rstrip]. destruct r as [| y r'].
  - cbn. unfold posixpath.endswith_sep in Hend. cbn in Hend.
    rewrite Hend. reflexivity.
  - rewrite endswith_sep_cons in Hend. rewrite (IH Hend). reflexivity.
Qed.

Lemma not_endswith_not_all_sep p :
  p <> [] -> posixpath.endswith_sep p = false -> posixpath.all_sep p = false.
Proof.
  induction p as [| x r IH]; intros Hne Hend; [contradiction |].
  destruct r as [| y r'].
  - unfold posixpath.endswith_sep in Hend. cbn in Hend. cbn.
    rewrite Hend. reflexivity.
  - rewrite endswith_sep_cons in Hend.
    change (posixpath.all_sep (x :: y :: r'))
      with (Ascii.eqb x posixpath.sep && posixpath.all_sep (y :: r')).
    rewrite (IH ltac:(discriminate) Hend). apply andb_false_r.
Qed.

Lemma endswith_sep_snoc p :
  posixpath.endswith_sep p = true -> exists q, p = (q ++ [posixpath.sep])%list.
Proof.
  unfold posixpath.endswith_sep. intros Hend.
  destruct (last p) as [x |] eqn:Hlast; [| discriminate Hend].
  apply last_Some in Hlast as [q ->].
  apply Ascii.eqb_eq in Hend. subst x. exists q. reflexivity.
Qed.

(** The head of [split] is a directory, its tail has no slash. *)
Lemma split_chars_head_dirlike p : dirlike (fst (posixpath.split_chars p)).
Proof.
  unfold posixpath.split_chars. cbn [fst].
  set (head := take _ p).
  destruct (negb (Nat.eqb (length head) 0)) eqn:Hlen; cbn [andb].
  - destruct (posixpath.all_sep head) eqn:Hall; cbn [negb].
    + left. exact Hall.
    + right. apply rstrip_not_endswith.
  - left. apply negb_false_iff, Nat.eqb_eq in Hlen.
    destruct head; [reflexivity | discriminate Hlen].
Qed.

Lemma split_chars_tail_free p :
  posixpath.sep ∉ snd (posixpath.split_chars p).
Proof. unfold posixpath.split_chars. cbn [snd]. apply rfind_tail_free. Qed.

(** Joining a directory and a name without slash, then splitting, gives the
    two back. *)
Lemma split_join_chars root name :
  dirlike root -> posixpath.sep ∉ name ->
  posixpath.split_chars (posixpath.join_chars root name) = (root, name).
Proof.
  intros Hdir Hfree. unfold posixpath.join_chars.
  assert (Hstart : posixpath.startswith_sep name = false).
  { destruct name as [| x r]; [reflexivity |]. cbn.
    destruct (Ascii.eqb_spec x posixpath.sep) as [-> |]; [| reflexivity].
    exfalso. apply Hfree. left. }
  rewrite Hstart.
  destruct root as [| r0 root'].
  - cbn [length Nat.eqb orb app]. unfold posixpath.split_chars.
    rewrite (rfind_absent _ _ Hfree). reflexivity.
  - cbn [length Nat.eqb orb].
    set (root := r0 :: root') in *.
    destruct (posixpath.endswith_sep root) eqn:Hend.
    + destruct Hdir as [Hall | Hno]; [| congruence].
      destruct (endswith_sep_snoc root Hend) as [q Hq].
      unfold posixpath.split_chars.
      replace (root ++ name)%list with (q ++ posixpath.sep :: name)%list
        by (rewrite Hq, <- app_assoc; reflexivity).
      rewrite (rfind_last_occurrence _ q name Hfree).
      replace (Z.to_nat (Z.of_nat (length q) + 1)) with (length root)
        by (rewrite Hq, length_app; cbn; lia).
      replace (q ++ posixpath.sep :: name)%list with (root ++ name)%list
        by (rewrite Hq, <- app_assoc; reflexivity).
      rewrite take_app_length, drop_app_length, Hall.
      rewrite andb_false_r. reflexivity.
    + unfold posixpath.split_chars.
      rewrite (rfind_last_occurrence _ root name Hfree).
      replace (Z.to_nat (Z.of_nat (length root) + 1))
        with (length (root ++ [posixpath.sep])%list)
        by (rewrite length_app; cbn; lia).
      replace (root ++ posixpath.sep :: name)%list
        with ((root ++ [posixpath.sep]) ++ name)%list
        by (rewrite <- app_assoc; reflexivity).
      rewrite take_app_length, drop_app_length.
      assert (Hnall : posixpath.all_sep (root ++ [posixpath.sep]) = false).
      { unfold posixpath.all_sep. rewrite forallb_app.
        fold (posixpath.all_sep root).
        rewrite (not_endswith_not_all_sep root ltac:(discriminate) Hend).
        reflexivity. }
      rewrite Hnall, length_app. cbn [length negb andb].
      replace (Nat.eqb (length root + 1) 0) with false
        by (symmetry; apply Nat.eqb_neq; lia).
      cbn [negb]. rewrite rstrip_snoc_sep, (rstrip_id root Hend).
      reflexivity.
Qed.

Lemma chars_append a b :
  list_ascii_of_string (a +:+ b)
  = (list_ascii_of_string a ++ list_ascii_of_string b)%list.
Proof.
  induction a as [| x a IH]; [reflexivity |].
  change (list_ascii_of_string (String x a +:+ b))
    with (x :: list_ascii_of_string (a +:+ b)).
  rewrite IH. reflexivity.
Qed.

Lemma slash_free_append a b :
  slash_free a -> slash_free b -> slash_free (a +:+ b).
Proof.
  unfold slash_free. intros Ha Hb. rewrite chars_append.
  intros Hin. apply elem_of_app in Hin as [? | ?]; contradiction.
Qed.

Lemma splitext_chars_root_sublist p x :
  x ∈ fst (posixpath.splitext_chars p) -> x ∈ p.
Proof.
  unfold posixpath.splitext_chars. destruct (_ && _); cbn [fst].
  - intros Hin. exact (subseteq_take _ _ _ Hin).
  - auto.
Qed.

Lemma video_stem_slash_free videofile : slash_free (video_stem videofile).
Proof.
  unfold slash_free, video_stem, posixpath.splitext, posixpath.split.
  destruct (posixpath.split_chars (list_ascii_of_string videofile))
    as [head tail] eqn:Hsplit.
  cbn [snd]. rewrite list_ascii_of_string_of_list_ascii.
  destruct (posixpath.splitext_chars tail) as [root ext] eqn:Hext.
  cbn [fst]. rewrite list_ascii_of_string_of_list_ascii.
  intros Hin.
  assert (Hroot : posixpath.sep ∈ fst (posixpath.splitext_chars tail))
    by (rewrite Hext; exact Hin).
  apply splitext_chars_root_sublist in Hroot.
  pose proof (split_chars_tail_free (list_ascii_of_string videofile)) as Hfree.
  rewrite Hsplit in Hfree. contradiction.
Qed.

Lemma gen_subname_unfold videofile language ext :
  _gen_subname videofile language ext
  = posixpath.join (fst (posixpath.split videofile))
      (video_stem videofile +:+ "." +:+ language +:+ "." +:+ ext).
Proof.
  unfold _gen_subname, video_stem.
  destruct (posixpath.split videofile) as [root basename]. cbn [fst snd].
  destruct (posixpath.splitext basename) as [name e]. reflexivity.
Qed.

(** The name [_gen_subname] builds lies in the directory of the video. *)
Lemma gen_subname_split videofile language ext :
  slash_free language -> slash_free ext ->
  posixpath.split (_gen_subname videofile language ext)
  = (fst (posixpath.split videofile),
     video_stem videofile +:+ "." +:+ language +:+ "." +:+ ext).
Proof.
  intros Hl He. rewrite gen_subname_unfold.
  set (name := video_stem videofile +:+ "." +:+ language +:+ "." +:+ ext).
  assert (Hname : slash_free name).
  { subst name. repeat apply slash_free_append;
      try assumption; try apply video_stem_slash_free.
    - unfold slash_free. cbn. intros Hin.
      apply list_elem_of_singleton in Hin. discriminate Hin.
    - unfold slash_free. cbn. intros Hin.
      apply list_elem_of_singleton in Hin. discriminate Hin. }
  unfold posixpath.join, posixpath.split at 1.
  rewrite list_ascii_of_string_of_list_ascii.
  assert (Hdir : dirlike (list_ascii_of_string
                            (fst (posixpath.split videofile)))).
  { unfold posixpath.split.
    pose proof (split_chars_head_dirlike (list_ascii_of_string videofile))
      as Hd.
    destruct (posixpath.split_chars (list_ascii_of_string videofile))
      as [head tail].
    cbn [fst] in *. rewrite list_ascii_of_string_of_list_ascii. exact Hd. }
  rewrite (split_join_chars _ _ Hdir Hname).
  rewrite !string_of_list_ascii_of_string. reflexivity.
Qed.

(** C2: every record returned (a [subinfo], with the four fields [link],
    [language], [ext] and [subname]) has as [subname] the video's directory
    joined with the video's base name without extension, the language and
    the format, separated by dots; when neither token contains a slash,
    splitting that path gives back the video's directory and the dotted
    name. *)
Theorem subname_beside_video
    (self : pyclass) (videofile : string) (languages exts : pyarg)
    (w : World) (subinfos : list subinfo) (d : subinfo) :
  snd (search_subs self videofile languages exts w) = Ok subinfos ->
  d ∈ subinfos ->
  sub_subname d
  = posixpath.join (fst (posixpath.split (abspath w videofile)))
         (video_stem (abspath w videofile)
            +:+ "." +:+ sub_language d +:+ "." +:+ sub_ext d)
  /\ (slash_free (sub_language d) -> slash_free (sub_ext d) ->
      posixpath.split (sub_subname d)
      = (fst (posixpath.split (abspath w videofile)),
         video_stem (abspath w videofile)
           +:+ "." +:+ sub_language d +:+ "." +:+ sub_ext d)).
Proof.
  intros Hrun Hd.
  destruct (search_subs_records _ _ _ _ _ _ _ Hrun Hd) as (_ & _ & Hname).
  rewrite Hname. split; [apply gen_subname_unfold |].
  apply gen_subname_split.
Qed.

Lemma subname_beside_video_witness :
  snd (search_subs ShooterSubSearcher "movie.mkv" (PyStr "Eng") PyNone
         sample_world)
  = Ok [ Subinfo "http://x/1" "Eng" "/v/movie.Eng.srt" "srt";
         Subinfo "http://x/2" "Eng" "/v/movie.Eng.ass" "ass" ]
  /\ (Subinfo "http://x/2" "Eng" "/v/movie.Eng.ass" "ass"
      ∈ [ Subinfo "http://x/1" "Eng" "/v/movie.Eng.srt" "srt";
          Subinfo "http://x/2" "Eng" "/v/movie.Eng.ass" "ass" ])
  /\ "/v/movie.Eng.ass"
     = posixpath.join (fst (posixpath.split "/v/movie.mkv"))
         (video_stem "/v/movie.mkv" +:+ "." +:+ "Eng" +:+ "." +:+ "ass")
  /\ (slash_free "Eng" -> slash_free "ass" ->
      posixpath.split "/v/movie.Eng.ass"
      = (fst (posixpath.split "/v/movie.mkv"),
         video_stem "/v/movie.mkv" +:+ "." +:+ "Eng" +:+ "." +:+ "ass")).
Proof.
  assert (H1 :
    snd (search_subs ShooterSubSearcher "movie.mkv" (PyStr "Eng") PyNone
           sample_world)
    = Ok [ Subinfo "http://x/1" "Eng" "/v/movie.Eng.srt" "srt";
           Subinfo "http://x/2" "Eng" "/v/movie.Eng.ass" "ass" ])
    by (vm_compute; reflexivity).
  assert (H2 :
    Subinfo "http://x/2" "Eng" "/v/movie.Eng.ass" "ass"
    ∈ [ Subinfo "http://x/1" "Eng" "/v/movie.Eng.srt" "srt";
        Subinfo "http://x/2" "Eng" "/v/movie.Eng.ass" "ass" ])
    by (right; left).
  split; [exact H1 |]. split; [exact H2 |].
  exact (subname_beside_video ShooterSubSearcher "movie.mkv"
           (PyStr "Eng") PyNone sample_world _ _ H1 H2).
Defined.

(** The declared tokens of [ShooterSubSearcher] contain no slash, so its
    records always name a file in the directory of the video. *)
Lemma shooter_subname_in_video_directory
    videofile languages exts w subinfos d :
  snd (search_subs ShooterSubSearcher videofile languages exts w)
  = Ok subinfos ->
  d ∈ subinfos ->
  posixpath.split (sub_subname d)
  = (fst (posixpath.split (abspath w videofile)),
     video_stem (abspath w videofile)
       +:+ "." +:+ sub_language d +:+ "." +:+ sub_ext d).
Proof.
  intros Hrun Hd.
  destruct (search_subs_records _ _ _ _ _ _ _ Hrun Hd) as (Hl & He & Hname).
  rewrite Hname. apply gen_subname_split.
  - cbn in Hl. unfold slash_free.
    repeat (apply elem_of_cons in Hl as [-> | Hl];
            [apply (bool_decide_unpack _); vm_compute; exact I |]).
    inversion Hl.
  - cbn in He. unfold slash_free.
    repeat (apply elem_of_cons in He as [-> | He];
            [apply (bool_decide_unpack _); vm_compute; exact I |]).
    inversion He.
Qed.

(* ===================================================================== *)
(** * Further properties: the order and the origin of the records         *)
(* ===================================================================== *)

Lemma filter_not_in_union (seen : gset string) (e : string) (l : list string) :
  filter (fun x => x ∉ seen ∪ {[ e ]}) l
  = filter (fun x => x ∉ seen) (filter (fun y => y <> e) l).
Proof.
  induction l as [| x l IH]; [reflexivity |].
  rewrite (filter_cons (fun x => x ∉ seen ∪ {[ e ]})).
  rewrite (filter_cons (fun y => y <> e)).
  destruct (decide (x <> e)) as [Hne | Heq].
  - rewrite (filter_cons (fun x => x ∉ seen)).
    destruct (decide (x ∉ seen)) as [Hout | Hin].
    + rewrite decide_True; [rewrite IH; reflexivity |].
      intros Hu. apply elem_of_union in Hu as [Hu | Hu]; [contradiction |].
      apply elem_of_singleton in Hu. contradiction.
    + rewrite decide_False; [exact IH |].
      intros Hn. apply Hin. intros Hs. apply Hn.
      apply elem_of_union. left. exact Hs.
  - rewrite decide_False; [exact IH |].
    intros Hn. apply Heq. intros ->. apply Hn.
    apply elem_of_union. right. apply elem_of_singleton. reflexivity.
Qed.

Lemma filter_not_in_seen (seen : gset string) (e : string) (l : list string) :
  e ∈ seen ->
  filter (fun x => x ∉ seen) (filter (fun y => y <> e) l)
  = filter (fun x => x ∉ seen) l.
Proof.
  intros Hin. induction l as [| x l IH]; [reflexivity |].
  rewrite (filter_cons (fun y => y <> e)).
  rewrite (filter_cons (fun x => x ∉ seen) x l).
  destruct (decide (x <> e)) as [Hne | Heq].
  - rewrite (filter_cons (fun x => x ∉ seen)), IH. reflexivity.
  - rewrite decide_False; [exact IH |].
    intros Hn. apply Heq. intros ->. contradiction.
Qed.

Lemma filter_all {A} (P : A -> Prop) `{forall x, Decision (P x)}
    (l : list A) :
  (forall x, P x) -> filter P l = l.
Proof.
  intros Hall. induction l as [| x l IH]; [reflexivity |].
  rewrite filter_cons, decide_True, IH; [reflexivity | apply Hall].
Qed.

(** The keys one language adds, in order: the requested extensions of the
    answer by first occurrence, without those seen before. *)
Lemma visit_items_keys videofile exts language items :
  forall subinfos ext_set,
    map record_key
      (fst (fold_left (visit_item videofile exts language) items
              (subinfos, ext_set)))
    = (map record_key subinfos
         ++ map (pair language)
              (filter (fun e => e ∉ ext_set)
                 (first_occurrences
                    (filter (fun e => e ∈ exts)
                       (map (fun item => lower (Ext item)) items)))))%list.
Proof.
  induction items as [| item rest IH]; intros subinfos ext_set.
  - cbn. rewrite app_nil_r. reflexivity.
  - cbn [fold_left map]. unfold visit_item at 2.
    rewrite filter_cons.
    destruct (decide (lower (Ext item) ∈ exts)) as [Hreq | Hreq].
    + rewrite (bool_decide_eq_true_2 _ Hreq). cbn [andb first_occurrences].
      rewrite filter_cons.
      destruct (decide (lower (Ext item) ∈ ext_set)) as [Hseen | Hseen].
      * rewrite (bool_decide_eq_true_2 _ Hseen). cbn [negb].
        rewrite decide_False by (intros Hn; apply Hn; exact Hseen).
        rewrite IH, (filter_not_in_seen _ _ _ Hseen). reflexivity.
      * rewrite (bool_decide_eq_false_2 _ Hseen). cbn [negb].
        rewrite (decide_True (P := lower (Ext item) ∉ ext_set))
          by exact Hseen.
        rewrite IH, map_app, <- app_assoc, filter_not_in_union.
        reflexivity.
    + rewrite (bool_decide_eq_false_2 _ Hreq). cbn [andb]. apply IH.
Qed.

Lemma visit_languages_keys videofile exts result :
  forall subinfos,
    map record_key (fold_left (visit_language videofile exts) result subinfos)
    = (map record_key subinfos
         ++ flat_map (fun entry =>
                        map (pair (fst entry))
                          (first_occurrences (answer_exts exts (snd entry))))
              result)%list.
Proof.
  induction result as [| [l sl] rest IH]; intros subinfos.
  - cbn. rewrite app_nil_r. reflexivity.
  - cbn [fold_left flat_map fst snd]. rewrite IH.
    unfold visit_language. rewrite visit_subinfos_flat, visit_items_keys.
    rewrite filter_all by (intros x; apply not_elem_of_empty).
    rewrite <- app_assoc. reflexivity.
Qed.

(** X1: the records come language by language, in the order in which the
    languages entered the answers, and within a language format by format,
    in the order in which the requested formats first occur in its
    answer. *)
Theorem normalize_discovery_order
    (videofile : string) (exts : list string)
    (result : list (string * list subinfo_json)) :
  map record_key (normalize videofile exts result)
  = flat_map (fun entry =>
                map (pair (fst entry))
                  (first_occurrences (answer_exts exts (snd entry))))
      result.
Proof. unfold normalize. rewrite visit_languages_keys. reflexivity. Qed.

Lemma visit_items_acc videofile exts language items :
  forall subinfos ext_set,
    fold_left (visit_item videofile exts language) items (subinfos, ext_set)
    = ((subinfos
          ++ fst (fold_left (visit_item videofile exts language) items
                    ([], ext_set)))%list,
       snd (fold_left (visit_item videofile exts language) items
              ([], ext_set))).
Proof.
  induction items as [| item rest IH]; intros subinfos ext_set.
  - cbn. rewrite app_nil_r. reflexivity.
  - cbn [fold_left]. unfold visit_item at 2 4 6.
    destruct (bool_decide (lower (Ext item) ∈ exts)
              && negb (bool_decide (lower (Ext item) ∈ ext_set))).
    + rewrite IH. cbn [app].
      rewrite (IH [_]). cbn [fst snd]. rewrite <- app_assoc. reflexivity.
    + apply IH.
Qed.

Lemma visit_languages_acc videofile exts result :
  forall subinfos,
    fold_left (visit_language videofile exts) result subinfos
    = (subinfos ++ fold_left (visit_language videofile exts) result [])%list.
Proof.
  induction result as [| [l sl] rest IH]; intros subinfos.
  - cbn. rewrite app_nil_r. reflexivity.
  - cbn [fold_left]. rewrite IH.
    rewrite (IH (visit_language videofile exts [] (l, sl))).
    unfold visit_language. rewrite !visit_subinfos_flat.
    rewrite visit_items_acc. cbn [fst]. rewrite <- app_assoc. reflexivity.
Qed.

(** X2: the records of two groups of answers are the records of the first
    group followed by those of the second: what one language contributes
    does not depend on the answers for the others. *)
Theorem normalize_app
    (videofile : string) (exts : list string)
    (result1 result2 : list (string * list subinfo_json)) :
  normalize videofile exts (result1 ++ result2)
  = (normalize videofile exts result1
       ++ normalize videofile exts result2)%list.
Proof.
  unfold normalize. rewrite fold_left_app. apply visit_languages_acc.
Qed.

Lemma lower_char_idempotent c : lower_char (lower_char c) = lower_char c.
Proof.
  unfold lower_char.
  destruct ((65 <=? N_of_ascii c) && (N_of_ascii c <=? 90))%N eqn:Hup.
  - apply andb_true_iff in Hup as [Hlo Hhi].
    apply N.leb_le in Hlo, Hhi.
    rewrite N_ascii_embedding by lia.
    destruct ((65 <=? N_of_ascii c + 32) && (N_of_ascii c + 32 <=? 90))%N
      eqn:Hup2; [| reflexivity].
    apply andb_true_iff in Hup2 as [_ Hhi2]. apply N.leb_le in Hhi2. lia.
  - rewrite Hup. reflexivity.
Qed.

Lemma lower_idempotent s : lower (lower s) = lower s.
Proof.
  induction s as [| c s IH]; [reflexivity |].
  cbn [lower]. rewrite lower_char_idempotent, IH. reflexivity.
Qed.

Lemma visit_items_origin videofile exts language items :
  forall subinfos ext_set d,
    d ∈ fst (fold_left (visit_item videofile exts language) items
               (subinfos, ext_set)) ->
    d ∈ subinfos
    \/ exists item,
         item ∈ items
         /\ d = Subinfo (Link item) language
                  (_gen_subname videofile language (lower (Ext item)))
                  (lower (Ext item)).
Proof.
  induction items as [| item rest IH]; intros subinfos ext_set d Hd.
  - left. exact Hd.
  - cbn [fold_left] in Hd. unfold visit_item at 2 in Hd.
    destruct (bool_decide (lower (Ext item) ∈ exts)
              && negb (bool_decide (lower (Ext item) ∈ ext_set))).
    + apply IH in Hd as [Hd | (it & Hit & ->)].
      * apply elem_of_app in Hd as [Hd | Hd]; [left; exact Hd |].
        apply list_elem_of_singleton in Hd. right. exists item.
        split; [left | exact Hd].
      * right. exists it. split; [right; exact Hit | reflexivity].
    + apply IH in Hd as [Hd | (it & Hit & ->)]; [left; exact Hd |].
      right. exists it. split; [right; exact Hit | reflexivity].
Qed.

Lemma visit_languages_origin videofile exts result :
  forall subinfos d,
    d ∈ fold_left (visit_language videofile exts) result subinfos ->
    d ∈ subinfos
    \/ exists language subinfolist item,
         (language, subinfolist) ∈ result
         /\ item ∈ flat_map Files subinfolist
         /\ d = Subinfo (Link item) language
                  (_gen_subname videofile language (lower (Ext item)))
                  (lower (Ext item)).
Proof.
  induction result as [| [l sl] rest IH]; intros subinfos d Hd.
  - left. exact Hd.
  - cbn [fold_left] in Hd. apply IH in Hd as [Hd | Hd].
    + unfold visit_language in Hd. rewrite visit_subinfos_flat in Hd.
      apply visit_items_origin in Hd as [Hd | (it & Hit & ->)];
        [left; exact Hd |].
      right. exists l, sl, it. split; [left | auto].
    + destruct Hd as (l' & sl' & it & Hin & Hit & ->).
      right. exists l', sl', it. split; [right; exact Hin | auto].
Qed.

(** X3: every record is made from a file entry of the answer for its
    language: it has that entry's link unchanged and that entry's extension
    in lower case, so that its format is a fixed point of [lower]. *)
Theorem normalize_record_origin
    (videofile : string) (exts : list string)
    (result : list (string * list subinfo_json)) (d : subinfo) :
  d ∈ normalize videofile exts result ->
  (exists subinfolist item,
      (sub_language d, subinfolist) ∈ result
      /\ item ∈ flat_map Files subinfolist
      /\ sub_link d = Link item
      /\ sub_ext d = lower (Ext item))
  /\ lower (sub_ext d) = sub_ext d.
Proof.
  intros Hd. unfold normalize in Hd.
  apply visit_languages_origin in Hd as [Hd | Hd]; [inversion Hd |].
  destruct Hd as (l & sl & it & Hin & Hit & ->). cbn [sub_language sub_ext
    sub_link]. split; [| apply lower_idempotent].
  exists sl, it. auto.
Qed.

Lemma normalize_record_origin_witness :
  (Subinfo "http://x/1" "Eng" "/v/movie.Eng.srt" "srt"
   ∈ normalize "/v/movie.mkv" ["ass"; "srt"] [("Eng", sample_answer)])
  /\ (exists subinfolist item,
        ("Eng", subinfolist) ∈ [("Eng", sample_answer)]
        /\ item ∈ flat_map Files subinfolist
        /\ "http://x/1" = Link item
        /\ "srt" = lower (Ext item))
  /\ lower "srt" = "srt".
Proof.
  assert (H1 : Subinfo "http://x/1" "Eng" "/v/movie.Eng.srt" "srt"
               ∈ normalize "/v/movie.mkv" ["ass"; "srt"]
                   [("Eng", sample_answer)])
    by (vm_compute; left).
  split; [exact H1 |].
  exact (normalize_record_origin "/v/movie.mkv" ["ass"; "srt"]
           [("Eng", sample_answer)] _ H1).
Defined.

(* ===================================================================== *)
(** * Further properties: the call as a whole                             *)
(* ===================================================================== *)

(** Once both checks pass, the call is the fingerprint followed by the
    query loop and [normalize]. *)
Lemma search_subs_checked self videofile languages exts w :
  (languages = PyNone -> SUPPORT_LANGUAGES self <> []) ->
  Forall (fun l => l ∈ SUPPORT_LANGUAGES self)
    (requested_languages self languages) ->
  Forall (fun e => e ∈ SUPPORT_EXTS self) (requested_exts self exts) ->
  search_subs self videofile languages exts w
  = match snd (_compute_video_hash (abspath w videofile) w) with
    | Raise e => (w, Raise e)
    | Ok h =>
        (fst (query_loop (requested_languages self languages)
                (Payload h (snd (posixpath.split (abspath w videofile)))
                   "json" "") [] w),
         match snd (query_loop (requested_languages self languages)
                      (Payload h
                         (snd (posixpath.split (abspath w videofile)))
                         "json" "") [] w) with
         | Ok result =>
             Ok (normalize (abspath w videofile) (requested_exts self exts)
                   result)
         | Raise e => Raise e
         end)
    end.
Proof.
  intros Hdefault Hlangs Hexts. unfold search_subs.
  rewrite (bind_ok _ _ w w (abspath w videofile)) by reflexivity.
  rewrite (bind_ok _ _ w w (requested_languages self languages)).
  2:{ destruct languages as [| s | l]; cbn [requested_languages];
        [| reflexivity | reflexivity].
      destruct (SUPPORT_LANGUAGES self); [| reflexivity].
      exfalso. apply Hdefault; reflexivity. }
  rewrite (bind_ok _ _ w w tt) by (apply check_languages_pass, Hlangs).
  rewrite (bind_ok _ _ w w (requested_exts self exts))
    by (destruct exts; reflexivity).
  rewrite (bind_ok _ _ w w tt) by (apply check_exts_pass, Hexts).
  pose proof (compute_video_hash_world (abspath w videofile) w) as Hworld.
  destruct (_compute_video_hash (abspath w videofile) w)
    as [w1 [h | e]] eqn:Hhash; cbn [fst snd] in *; subst w1.
  - rewrite (bind_ok _ _ w w h) by exact Hhash.
    destruct (posixpath.split (abspath w videofile)) as [root basename].
    cbn [snd]. unfold bind, ret.
    destruct (query_loop _ (Payload h basename "json" "") [] w)
      as [w' [result | e]]; reflexivity.
  - apply bind_raise. exact Hhash.
Qed.

Lemma query_loop_frame languages :
  forall p result w,
    registered_subsearchers (fst (query_loop languages p result w))
    = registered_subsearchers w.
Proof.
  induction languages as [| language rest IH]; intros p result w;
    [reflexivity |].
  cbn [query_loop]. unfold bind. rewrite query_step.
  destruct (remote w (sent w) _) as [msg | js]; [reflexivity |].
  rewrite IH. reflexivity.
Qed.


(** X5: a call leaves the files, the registry, the working directory and
    the service as they were; the only trace it leaves is the requests it
    appended to the log. *)
Theorem search_subs_frame
    (self : pyclass) (videofile : string) (languages exts : pyarg)
    (w : World) :
  files (fst (search_subs self videofile languages exts w)) = files w
  /\ registered_subsearchers
       (fst (search_subs self videofile languages exts w))
     = registered_subsearchers w
  /\ abspath (fst (search_subs self videofile languages exts w)) = abspath w
  /\ remote (fst (search_subs self videofile languages exts w)) = remote w
  /\ sent (fst (search_subs self videofile languages exts w))
     = (sent w
          ++ posted w (fst (search_subs self videofile languages exts w)))%list.
Proof.
  destruct (search_subs_cases self videofile languages exts w)
    as [[e He] | (h0 & _ & _ & _ & Heq)].
  - rewrite He. cbn [fst]. unfold posted.
    rewrite drop_all, app_nil_r. auto.
  - rewrite Heq. cbn [fst].
    match goal with
    | |- context [query_loop ?ls ?p ?res w] =>
        destruct (query_loop_world ls p res w)
          as (Hf & Ha & Hr & new & Hs & _ & _);
        pose proof (query_loop_frame ls p res w) as Hreg
    end.
    unfold posted. rewrite Hs, drop_app_length. auto.
Qed.

(** X6: when both checks pass and fingerprinting the video raises, the
    call raises that very exception (the [InvalidFileError] of a video that
    is too small, the [OSError] of one that cannot be opened), in the world
    it started in: nothing was posted. *)
Theorem fingerprint_failure_propagates
    (self : pyclass) (videofile : string) (languages exts : pyarg)
    (w : World) (e : exn) :
  (languages = PyNone -> SUPPORT_LANGUAGES self <> []) ->
  Forall (fun l => l ∈ SUPPORT_LANGUAGES self)
    (requested_languages self languages) ->
  Forall (fun x => x ∈ SUPPORT_EXTS self) (requested_exts self exts) ->
  snd (_compute_video_hash (abspath w videofile) w) = Raise e ->
  search_subs self videofile languages exts w = (w, Raise e).
Proof.
  intros Hdefault Hlangs Hexts Hhash.
  rewrite (search_subs_checked _ _ _ _ _ Hdefault Hlangs Hexts), Hhash.
  reflexivity.
Qed.

Lemma fingerprint_failure_propagates_witness :
  (PyStr "Eng" = PyNone -> SUPPORT_LANGUAGES ShooterSubSearcher <> [])
  /\ Forall (fun l => l ∈ SUPPORT_LANGUAGES ShooterSubSearcher)
       (requested_languages ShooterSubSearcher (PyStr "Eng"))
  /\ Forall (fun x => x ∈ SUPPORT_EXTS ShooterSubSearcher)
       (requested_exts ShooterSubSearcher PyNone)
  /\ snd (_compute_video_hash (abspath sample_world "short.mkv") sample_world)
     = Raise (InvalidFileError "the video[short.mkv] is too small")
  /\ search_subs ShooterSubSearcher "short.mkv" (PyStr "Eng") PyNone
       sample_world
     = (sample_world,
        Raise (InvalidFileError "the video[short.mkv] is too small")).
Proof.
  assert (H1 : PyStr "Eng" = PyNone
               -> SUPPORT_LANGUAGES ShooterSubSearcher <> [])
    by (intros H; discriminate H).
  assert (H2 : Forall (fun l => l ∈ SUPPORT_LANGUAGES ShooterSubSearcher)
                 (requested_languages ShooterSubSearcher (PyStr "Eng")))
    by (apply (bool_decide_unpack _); vm_compute; exact I).
  assert (H3 : Forall (fun x => x ∈ SUPPORT_EXTS ShooterSubSearcher)
                 (requested_exts ShooterSubSearcher PyNone))
    by (apply (bool_decide_unpack _); vm_compute; exact I).
  assert (H4 : snd (_compute_video_hash (abspath sample_world "short.mkv")
                      sample_world)
               = Raise (InvalidFileError "the video[short.mkv] is too small"))
    by (vm_compute; reflexivity).
  split; [exact H1 |]. split; [exact H2 |]. split; [exact H3 |].
  split; [exact H4 |].
  exact (fingerprint_failure_propagates ShooterSubSearcher "short.mkv"
           (PyStr "Eng") PyNone sample_world _ H1 H2 H3 H4).
Defined.

(** X7: with declared languages and a format the class does not declare,
    the call raises [ExtError] in the world it started in: before the video
    is opened (it need not exist) and before any request. *)
Theorem unsupported_ext_fails_before_fingerprint
    (self : pyclass) (videofile : string) (languages exts : pyarg)
    (ext : string) (w : World) :
  (languages = PyNone -> SUPPORT_LANGUAGES self <> []) ->
  Forall (fun l => l ∈ SUPPORT_LANGUAGES self)
    (requested_languages self languages) ->
  ext ∈ tokens exts ->
  ext ∉ SUPPORT_EXTS self ->
  exists msg,
    search_subs self videofile languages exts w = (w, Raise (ExtError msg)).
Proof.
  intros Hdefault Hlangs Hin Hbad. unfold search_subs.
  rewrite (bind_ok _ _ w w (abspath w videofile)) by reflexivity.
  rewrite (bind_ok _ _ w w (requested_languages self languages)).
  2:{ destruct languages as [| s | l]; cbn [requested_languages];
        [| reflexivity | reflexivity].
      destruct (SUPPORT_LANGUAGES self); [| reflexivity].
      exfalso. apply Hdefault; reflexivity. }
  rewrite (bind_ok _ _ w w tt) by (apply check_languages_pass, Hlangs).
  rewrite (bind_ok _ _ w w (tokens exts)).
  2:{ destruct exts; cbn [tokens] in *; [inversion Hin | |]; reflexivity. }
  destruct (check_exts_fail self (tokens exts) ext w Hin Hbad) as [msg Hmsg].
  exists msg. apply bind_raise. exact Hmsg.
Qed.

Lemma unsupported_ext_fails_before_fingerprint_witness :
  (PyNone = PyNone -> SUPPORT_LANGUAGES ShooterSubSearcher <> [])
  /\ Forall (fun l => l ∈ SUPPORT_LANGUAGES ShooterSubSearcher)
       (requested_languages ShooterSubSearcher PyNone)
  /\ ("sub" ∈ tokens (PyList ["srt"; "sub"]))
  /\ ("sub" ∉ SUPPORT_EXTS ShooterSubSearcher)
  /\ exists msg,
       search_subs ShooterSubSearcher "no-such-file.mkv" PyNone
         (PyList ["srt"; "sub"]) sample_world
       = (sample_world, Raise (ExtError msg)).
Proof.
  assert (H1 : PyNone = PyNone -> SUPPORT_LANGUAGES ShooterSubSearcher <> [])
    by (intros _ H; discriminate H).
  assert (H2 : Forall (fun l => l ∈ SUPPORT_LANGUAGES ShooterSubSearcher)
                 (requested_languages ShooterSubSearcher PyNone))
    by (apply (bool_decide_unpack _); vm_compute; exact I).
  assert (H3 : "sub" ∈ tokens (PyList ["srt"; "sub"]))
    by (apply (bool_decide_unpack _); vm_compute; exact I).
  assert (H4 : "sub" ∉ SUPPORT_EXTS ShooterSubSearcher)
    by (apply (bool_decide_unpack _); vm_compute; exact I).
  split; [exact H1 |]. split; [exact H2 |]. split; [exact H3 |].
  split; [exact H4 |].
  exact (unsupported_ext_fails_before_fingerprint ShooterSubSearcher
           "no-such-file.mkv" PyNone (PyList ["srt"; "sub"]) "sub"
           sample_world H1 H2 H3 H4).
Defined.

(** X8: with an empty list of languages a call whose formats are declared
    and whose video has a fingerprint returns no records and posts nothing;
    with an empty list of formats a call that returns, returns no
    records. *)
Theorem search_subs_empty_lists
    (self : pyclass) (videofile : string) (languages exts : pyarg)
    (w : World) (h : string) :
  Forall (fun x => x ∈ SUPPORT_EXTS self) (requested_exts self exts) ->
  snd (_compute_video_hash (abspath w videofile) w) = Ok h ->
  search_subs self videofile (PyList []) exts w = (w, Ok [])
  /\ (forall subinfos,
        snd (search_subs self videofile languages (PyList []) w)
        = Ok subinfos ->
        subinfos = []).
Proof.
  intros Hexts Hhash. split.
  - rewrite (search_subs_checked self videofile (PyList []) exts w);
      [| intros H; discriminate H | constructor | exact Hexts].
    rewrite Hhash. reflexivity.
  - intros subinfos Hok.
    destruct subinfos as [| d rest]; [reflexivity |]. exfalso.
    destruct (search_subs_ok_inv _ _ _ _ _ _ Hok)
      as (h' & result & _ & _ & _ & Hloop & Hnorm).
    destruct (query_loop_ok_keys _ _ _ _ _ _ Hloop (NoDup_nil_2 (A:=string)))
      as [Hnodup _].
    assert (Hd : d ∈ normalize (abspath w videofile)
                       (requested_exts self (PyList [])) result)
      by (rewrite <- Hnorm; left).
    destruct (normalize_records _ _ _ _ Hnodup Hd) as (_ & Hext & _).
    inversion Hext.
Qed.

Lemma search_subs_empty_lists_witness :
  Forall (fun x => x ∈ SUPPORT_EXTS ShooterSubSearcher)
    (requested_exts ShooterSubSearcher (PyStr "srt"))
  /\ snd (_compute_video_hash (abspath sample_world "movie.mkv") sample_world)
     = Ok (fingerprint_at sample_video (shooter_offsets 20000))
  /\ search_subs ShooterSubSearcher "movie.mkv" (PyList []) (PyStr "srt")
       sample_world
     = (sample_world, Ok [])
  /\ (forall subinfos,
        snd (search_subs ShooterSubSearcher "movie.mkv" (PyStr "Eng")
               (PyList []) sample_world)
        = Ok subinfos ->
        subinfos = []).
Proof.
  assert (H1 : Forall (fun x => x ∈ SUPPORT_EXTS ShooterSubSearcher)
                 (requested_exts ShooterSubSearcher (PyStr "srt")))
    by (apply (bool_decide_unpack _); vm_compute; exact I).
  assert (H2 : snd (_compute_video_hash (abspath sample_world "movie.mkv")
                      sample_world)
               = Ok (fingerprint_at sample_video (shooter_offsets 20000)))
    by (vm_compute; reflexivity).
  split; [exact H1 |]. split; [exact H2 |].
  exact (search_subs_empty_lists ShooterSubSearcher "movie.mkv"
           (PyStr "Eng") (PyStr "srt") sample_world _ H1 H2).
Defined.

Lemma dict_get_set_eq {V} (d : list (string * V)) k v :
  dict_get (dict_set d k v) k = Some v.
Proof.
  induction d as [| [k' v'] r IH]; cbn [dict_set dict_get].
  - rewrite String.eqb_refl. reflexivity.
  - destruct (String.eqb k k') eqn:Hk; cbn [dict_get].
    + rewrite String.eqb_refl. reflexivity.
    + rewrite Hk. exact IH.
Qed.

Lemma dict_get_set_ne {V} (d : list (string * V)) k k' v :
  k' <> k -> dict_get (dict_set d k v) k' = dict_get d k'.
Proof.
  intros Hne. induction d as [| [k0 v0] r IH]; cbn [dict_set dict_get].
  - destruct (String.eqb_spec k' k); [contradiction | reflexivity].
  - destruct (String.eqb_spec k k0) as [-> | Hk]; cbn [dict_get].
    + destruct (String.eqb_spec k' k0); [contradiction | reflexivity].
    + rewrite IH. reflexivity.
Qed.

(** The answer kept for a language is the answer to the last request
    posted for it; languages not asked for keep what they had. *)
Lemma query_loop_keeps_last_answer languages :
  forall p result w result' language,
    snd (query_loop languages p result w) = Ok result' ->
    (language ∉ languages ->
     dict_get result' language = dict_get result language)
    /\ (language ∈ languages ->
        exists pre post js,
          posted w (fst (query_loop languages p result w))
          = (pre ++ Request API_URL
                      (Payload (filehash p) (pathinfo p) (format p)
                         language) :: post)%list
          /\ Forall (fun r => lang (data r) <> language) post
          /\ remote w (sent w ++ pre)
               (Request API_URL
                  (Payload (filehash p) (pathinfo p) (format p) language))
             = inr js
          /\ dict_get result' language = Some js).
Proof.
  induction languages as [| l0 rest IH];
    intros p result w result' language Hok.
  - cbn in Hok. injection Hok as <-.
    split; [reflexivity | intros Hin; inversion Hin].
  - cbn [query_loop] in *. unfold bind in *. rewrite query_step in *.
    destruct (remote w (sent w) _) as [msg | js0] eqn:Hstep;
      [discriminate Hok |].
    match type of Hok with
    | context [query_loop rest ?p' ?res' ?w1] =>
        destruct (IH p' res' w1 result' language Hok) as [IHout IHin];
        destruct (query_loop_world rest p' res' w1)
          as (_ & _ & _ & new & Hs & Hnew & _)
    end.
    cbn [filehash pathinfo format after_post sent remote] in *.
    assert (Hposted :
      posted w (fst (query_loop rest
                       (Payload (filehash p) (pathinfo p) (format p) l0)
                       (dict_set result l0 js0)
                       (after_post w
                          (Request API_URL
                             (Payload (filehash p) (pathinfo p) (format p)
                                l0)))))
      = Request API_URL (Payload (filehash p) (pathinfo p) (format p) l0)
          :: new).
    { unfold posted. rewrite Hs, <- app_assoc, drop_app_length.
      reflexivity. }
    split.
    + intros Hout. rewrite IHout.
      * apply dict_get_set_ne. intros ->. apply Hout. left.
      * intros Hin. apply Hout. right. exact Hin.
    + intros Hin. destruct (decide (language ∈ rest)) as [Hrest | Hrest].
      * destruct (IHin Hrest) as (pre & post & js & Hp & Hpost & Hrem & Hget).
        exists (Request API_URL
                  (Payload (filehash p) (pathinfo p) (format p) l0) :: pre),
               post, js.
        split.
        { rewrite Hposted. cbn [app]. f_equal.
          unfold posted in Hp. rewrite Hs, drop_app_length in Hp.
          exact Hp. }
        split; [exact Hpost |]. split; [| exact Hget].
        rewrite <- app_assoc in Hrem. exact Hrem.
      * apply elem_of_cons in Hin as [-> | Hin]; [| contradiction].
        exists [], new, js0. split; [rewrite Hposted; reflexivity |].
        split.
        { rewrite Hnew. apply Forall_forall. intros r Hr.
          apply list_elem_of_fmap in Hr as (l & -> & Hl).
          cbn [data lang]. intros ->. apply Hrest.
          exact (subseteq_take _ _ _ Hl). }
        split; [rewrite app_nil_r; exact Hstep |].
        rewrite (IHout Hrest). apply dict_get_set_eq.
Qed.

Lemma filter_none {A} (P : A -> Prop) `{forall x, Decision (P x)}
    (l : list A) :
  (forall x, x ∈ l -> ~ P x) -> filter P l = [].
Proof.
  induction l as [| x l IH]; intros Hnone; [reflexivity |].
  rewrite filter_cons, decide_False by (apply Hnone; left).
  apply IH. intros y Hy. apply Hnone. right. exact Hy.
Qed.

Lemma filter_every {A} (P : A -> Prop) `{forall x, Decision (P x)}
    (l : list A) :
  (forall x, x ∈ l -> P x) -> filter P l = l.
Proof.
  induction l as [| x l IH]; intros Hall; [reflexivity |].
  rewrite filter_cons, decide_True by (apply Hall; left).
  rewrite IH; [reflexivity |]. intros y Hy. apply Hall. right. exact Hy.
Qed.

Lemma normalize_cons videofile exts entry result :
  normalize videofile exts (entry :: result)
  = (normalize videofile exts [entry] ++ normalize videofile exts result)%list.
Proof.
  unfold normalize. cbn [fold_left]. apply visit_languages_acc.
Qed.

Lemma normalize_single_language videofile exts language subinfolist d :
  d ∈ normalize videofile exts [(language, subinfolist)] ->
  sub_language d = language.
Proof.
  intros Hd.
  assert (Hnodup : NoDup (map fst [(language, subinfolist)]))
    by (apply NoDup_singleton).
  destruct (normalize_records _ _ _ _ Hnodup Hd) as (Hl & _).
  cbn in Hl. apply list_elem_of_singleton in Hl. exact Hl.
Qed.

(** The records of one language are those of its entry alone. *)
Lemma normalize_filter_language videofile exts result language :
  NoDup (map fst result) ->
  filter (fun d => sub_language d = language)
    (normalize videofile exts result)
  = match dict_get result language with
    | Some subinfolist => normalize videofile exts [(language, subinfolist)]
    | None => []
    end.
Proof.
  induction result as [| [l sl] rest IH]; intros Hnodup; [reflexivity |].
  cbn [map fst] in Hnodup. apply NoDup_cons in Hnodup as [Hfresh Hnodup].
  rewrite normalize_cons, filter_app, (IH Hnodup). cbn [dict_get].
  destruct (String.eqb_spec language l) as [-> | Hne].
  - rewrite (dict_get_absent rest l Hfresh), app_nil_r.
    apply filter_every. intros d Hd.
    apply (normalize_single_language _ _ _ _ _ Hd).
  - rewrite filter_none; [reflexivity |].
    intros d Hd Hl. apply Hne. rewrite <- Hl.
    apply (normalize_single_language _ _ _ _ _ Hd).
Qed.

(** X9: in a call that returns, the records of a language are built from
    the answer to the last request posted for that language: when a language
    is asked for more than once, each later answer replaces the earlier
    one. *)
Theorem repeated_language_last_answer_wins
    (self : pyclass) (videofile : string) (languages exts : pyarg)
    (w : World) (subinfos : list subinfo) (language : string) :
  snd (search_subs self videofile languages exts w) = Ok subinfos ->
  language ∈ requested_languages self languages ->
  exists pre req post js,
    posted w (fst (search_subs self videofile languages exts w))
    = (pre ++ req :: post)%list
    /\ lang (data req) = language
    /\ Forall (fun r => lang (data r) <> language) post
    /\ remote w (sent w ++ pre) req = inr js
    /\ filter (fun d => sub_language d = language) subinfos
       = normalize (abspath w videofile) (requested_exts self exts)
           [(language, js)].
Proof.
  intros Hok Hin.
  destruct (search_subs_ok_inv _ _ _ _ _ _ Hok)
    as (h & result & _ & _ & _ & Hloop & ->).
  destruct (query_loop_ok_keys _ _ _ _ _ _ Hloop (NoDup_nil_2 (A:=string)))
    as [Hnodup _].
  assert (Hsnd : snd (query_loop (requested_languages self languages)
                        (Payload h
                           (snd (posixpath.split (abspath w videofile)))
                           "json" "") [] w) = Ok result)
    by (rewrite Hloop; reflexivity).
  destruct (query_loop_keeps_last_answer _ _ _ _ _ language Hsnd)
    as [_ Hlast].
  destruct (Hlast Hin) as (pre & post & js & Hp & Hpost & Hrem & Hget).
  rewrite Hloop in Hp. cbn [fst] in Hp.
  eexists pre, _, post, js. split; [exact Hp |].
  split; [reflexivity |]. split; [exact Hpost |]. split; [exact Hrem |].
  rewrite (normalize_filter_language _ _ _ language Hnodup), Hget.
  reflexivity.
Qed.

Lemma repeated_language_last_answer_wins_witness :
  snd (search_subs ShooterSubSearcher "least.mkv" (PyList ["Eng"; "Eng"])
         PyNone counting_world)
  = Ok [ Subinfo "http://x/later" "Eng" "/v/least.Eng.srt" "srt" ]
  /\ ("Eng" ∈ requested_languages ShooterSubSearcher (PyList ["Eng"; "Eng"]))
  /\ exists pre req post js,
       posted counting_world
         (fst (search_subs ShooterSubSearcher "least.mkv"
                 (PyList ["Eng"; "Eng"]) PyNone counting_world))
       = (pre ++ req :: post)%list
       /\ lang (data req) = "Eng"
       /\ Forall (fun r => lang (data r) <> "Eng") post
       /\ remote counting_world (sent counting_world ++ pre) req = inr js
       /\ filter (fun d => sub_language d = "Eng")
            [ Subinfo "http://x/later" "Eng" "/v/least.Eng.srt" "srt" ]
          = normalize (abspath counting_world "least.mkv")
              (requested_exts ShooterSubSearcher PyNone) [("Eng", js)].
Proof.
  assert (H1 :
    snd (search_subs ShooterSubSearcher "least.mkv" (PyList ["Eng"; "Eng"])
           PyNone counting_world)
    = Ok [ Subinfo "http://x/later" "Eng" "/v/least.Eng.srt" "srt" ])
    by (vm_compute; reflexivity).
  assert (H2 : "Eng" ∈ requested_languages ShooterSubSearcher
                         (PyList ["Eng"; "Eng"]))
    by (apply (bool_decide_unpack _); vm_compute; exact I).
  split; [exact H1 |]. split; [exact H2 |].
  exact (repeated_language_last_answer_wins ShooterSubSearcher "least.mkv"
           (PyList ["Eng"; "Eng"]) PyNone counting_world _ "Eng" H1 H2).
Defined.

(* ===================================================================== *)
(** * Further properties: the registry and the checks                     *)
(* ===================================================================== *)

(** X10: decorating a class with [register], in either form, comes down to
    one registration under the given name, or under the class's own
    [__name__] when no name is given.  For a subclass of [BaseSubSearcher]
    it returns the class itself, binds that name to it and leaves every
    other name, the files and the request log alone; for any other class it
    raises [ValueError] and changes nothing. *)
Theorem register_decorator_outcome
    (subsearcher_cls : pyclass) (name : option string) (w : World) :
  register (Some subsearcher_cls) name = inl (decorator name subsearcher_cls)
  /\ register None name = inr (decorator name)
  /\ if is_subsearcher subsearcher_cls then
       exists w',
         decorator name subsearcher_cls w = (w', Ok subsearcher_cls)
         /\ (forall fallback,
               get_subsearcher (default (cls_name subsearcher_cls) name)
                 fallback w'
               = (w', Ok (Some subsearcher_cls)))
         /\ (forall other fallback,
               other <> default (cls_name subsearcher_cls) name ->
               snd (get_subsearcher other fallback w')
               = snd (get_subsearcher other fallback w))
         /\ files w' = files w /\ sent w' = sent w
     else
       decorator name subsearcher_cls w
       = (w, Raise (ValueError (cls_str subsearcher_cls
                                  +:+ " is not a subclass of BaseSubSearcher"))).
Proof.
  split; [reflexivity |]. split; [reflexivity |].
  destruct (is_subsearcher subsearcher_cls) eqn:Hsub.
  - destruct (register_subsearcher_ok
                (default (cls_name subsearcher_cls) name) subsearcher_cls w
                Hsub) as (w' & Hreg & Hmap & Hfiles & Hsent).
    exists w'. split.
    { unfold decorator.
      replace (match name with
               | Some n => n
               | None => cls_name subsearcher_cls
               end) with (default (cls_name subsearcher_cls) name)
        by (destruct name; reflexivity).
      rewrite (bind_ok _ _ w w' tt Hreg). reflexivity. }
    split.
    { intros d. apply get_subsearcher_bound. rewrite Hmap.
      apply lookup_insert_eq. }
    split; [| auto].
    intros other d Hne. unfold get_subsearcher. cbn [snd].
    rewrite Hmap, lookup_insert_ne by congruence. reflexivity.
  - unfold decorator, register_subsearcher. rewrite Hsub. reflexivity.
Qed.

Lemma module_init_world w :
  exists w',
    module_init w = (w', Ok tt)
    /\ registered_subsearchers w'
       = <[ "ShooterSubSearcher" := ShooterSubSearcher ]>
           (<[ "default" := ShooterSubSearcher ]>
              (registered_subsearchers w))
    /\ files w' = files w /\ sent w' = sent w.
Proof. eexists. split; [reflexivity |]. cbn. auto. Qed.

(** X11: importing the module, in any world, raises nothing and leaves the
    shooter searcher bound to both ["default"] and ["ShooterSubSearcher"],
    whatever these names were bound to; every other name keeps its
    binding. *)
Theorem module_init_registers_shooter
    (w : World) (fallback : option pyclass) :
  exists w',
    module_init w = (w', Ok tt)
    /\ get_subsearcher "default" fallback w'
       = (w', Ok (Some ShooterSubSearcher))
    /\ get_subsearcher "ShooterSubSearcher" fallback w'
       = (w', Ok (Some ShooterSubSearcher))
    /\ (forall other,
          other <> "default" -> other <> "ShooterSubSearcher" ->
          snd (get_subsearcher other fallback w')
          = snd (get_subsearcher other fallback w)).
Proof.
  destruct (module_init_world w) as (w' & Hinit & Hmap & _).
  exists w'. split; [exact Hinit |].
  split.
  { apply get_subsearcher_bound. rewrite Hmap.
    rewrite lookup_insert_ne by discriminate. apply lookup_insert_eq. }
  split.
  { apply get_subsearcher_bound. rewrite Hmap. apply lookup_insert_eq. }
  intros other Hd Hs. unfold get_subsearcher. cbn [snd].
  rewrite Hmap, !lookup_insert_ne by congruence. reflexivity.
Qed.

Lemma register_subsearcher_world name cls w :
  is_subsearcher cls = true ->
  register_subsearcher name cls w
  = (MkWorld (files w) (abspath w)
       (<[name := cls]> (registered_subsearchers w)) (sent w) (remote w),
     Ok tt).
Proof.
  intros Hsub. unfold register_subsearcher. rewrite Hsub. reflexivity.
Qed.

(** X12: registrations under different names commute, and of two
    registrations under one name only the second one counts. *)
Theorem registrations_compose
    (w : World) (name1 name2 : string) (cls1 cls2 : pyclass) :
  is_subsearcher cls1 = true ->
  is_subsearcher cls2 = true ->
  name1 <> name2 ->
  (register_subsearcher name1 cls1 ;;; register_subsearcher name2 cls2) w
  = (register_subsearcher name2 cls2 ;;; register_subsearcher name1 cls1) w
  /\ (register_subsearcher name1 cls1 ;;; register_subsearcher name1 cls2) w
     = register_subsearcher name1 cls2 w.
Proof.
  intros H1 H2 Hne. unfold bind.
  rewrite !(register_subsearcher_world _ _ w) by assumption.
  rewrite !register_subsearcher_world by assumption.
  cbn [files abspath registered_subsearchers sent remote]. split.
  - rewrite insert_insert_ne by congruence. reflexivity.
  - rewrite insert_insert_eq. reflexivity.
Qed.

Lemma registrations_compose_witness :
  is_subsearcher ShooterSubSearcher = true
  /\ is_subsearcher OtherSubSearcher = true
  /\ "default" <> "other"
  /\ (register_subsearcher "default" ShooterSubSearcher ;;;
      register_subsearcher "other" OtherSubSearcher) counting_world
     = (register_subsearcher "other" OtherSubSearcher ;;;
        register_subsearcher "default" ShooterSubSearcher) counting_world
  /\ (register_subsearcher "default" ShooterSubSearcher ;;;
      register_subsearcher "default" OtherSubSearcher) counting_world
     = register_subsearcher "default" OtherSubSearcher counting_world.
Proof.
  assert (H3 : "default" <> "other") by (intros H; discriminate H).
  split; [reflexivity |]. split; [reflexivity |]. split; [exact H3 |].
  exact (registrations_compose counting_world "default" "other"
           ShooterSubSearcher OtherSubSearcher eq_refl eq_refl H3).
Defined.





(* ===================================================================== *)
(** * Further properties: the fingerprint and the subtitle names          *)
(* ===================================================================== *)

Lemma window_after_prefix head rest offset :
  Z.of_nat (length head) <= offset ->
  window (head ++ rest) offset
  = window rest (offset - Z.of_nat (length head)).
Proof.
  intros Hle. unfold window.
  rewrite drop_app_ge by lia. f_equal. f_equal. lia.
Qed.

Lemma fingerprint_at_ext content content' offsets :
  Forall (fun o => window content o = window content' o) offsets ->
  fingerprint_at content offsets = fingerprint_at content' offsets.
Proof.
  intros Hall. unfold fingerprint_at. apply (f_equal (str_join ";")).
  induction Hall as [| o os Ho _ IH]; cbn [map]; [reflexivity |].
  rewrite Ho, IH. reflexivity.
Qed.

Lemma shooter_offsets_after_first_block T :
  12288 <= T -> Forall (fun o => 4096 <= o) (shooter_offsets T).
Proof.
  intros HT. unfold shooter_offsets.
  repeat constructor; Z.to_euclidean_division_equations; lia.
Qed.

(** X14: the first 4096 bytes of a video never enter its fingerprint: two
    files that differ only there get the same fingerprint, or are both
    refused. *)
Theorem fingerprint_ignores_first_block
    (w w' : World) (videofile videofile' : string)
    (head head' rest : list Byte.byte) :
  files w !! videofile = Some (head ++ rest)%list ->
  files w' !! videofile' = Some (head' ++ rest)%list ->
  length head = 4096%nat ->
  length head' = 4096%nat ->
  fingerprint_of (snd (_compute_video_hash videofile w))
  = fingerprint_of (snd (_compute_video_hash videofile' w')).
Proof.
  intros Hfile Hfile' Hlen Hlen'.
  rewrite (compute_video_hash_present _ _ _ Hfile).
  rewrite (compute_video_hash_present _ _ _ Hfile').
  cbn [snd]. rewrite !length_app, Hlen, Hlen'.
  destruct (Z.of_nat (4096 + length rest) <? 12288) eqn:Hsmall;
    [reflexivity |].
  apply Z.ltb_ge in Hsmall. cbn [fingerprint_of].
  apply (f_equal Some). apply fingerprint_at_ext.
  eapply Forall_impl; [apply shooter_offsets_after_first_block, Hsmall |].
  intros o Ho. cbn beta.
  assert (Hz : Z.of_nat (length head) = 4096) by (rewrite Hlen; reflexivity).
  assert (Hz' : Z.of_nat (length head') = 4096)
    by (rewrite Hlen'; reflexivity).
  rewrite (window_after_prefix head) by (rewrite Hz; exact Ho).
  rewrite (window_after_prefix head') by (rewrite Hz'; exact Ho).
  rewrite Hz, Hz'. reflexivity.
Qed.

Lemma fingerprint_ignores_first_block_witness :
  files block_world !! "/a.mkv" = Some (first_block_a ++ later_blocks)%list
  /\ files block_world !! "/b.mkv" = Some (first_block_b ++ later_blocks)%list
  /\ length first_block_a = 4096%nat
  /\ length first_block_b = 4096%nat
  /\ fingerprint_of (snd (_compute_video_hash "/a.mkv" block_world))
     = fingerprint_of (snd (_compute_video_hash "/b.mkv" block_world)).
Proof.
  assert (H1 : files block_world !! "/a.mkv"
               = Some (first_block_a ++ later_blocks)%list) by reflexivity.
  assert (H2 : files block_world !! "/b.mkv"
               = Some (first_block_b ++ later_blocks)%list) by reflexivity.
  assert (H3 : length first_block_a = 4096%nat) by (vm_compute; reflexivity).
  assert (H4 : length first_block_b = 4096%nat) by (vm_compute; reflexivity).
  split; [exact H1 |]. split; [exact H2 |]. split; [exact H3 |].
  split; [exact H4 |].
  exact (fingerprint_ignores_first_block block_world block_world
           "/a.mkv" "/b.mkv" first_block_a first_block_b later_blocks
           H1 H2 H3 H4).
Defined.

Lemma rfind_upper_bound c p : posixpath.rfind c p < Z.of_nat (length p).
Proof.
  induction p as [| x r IH]; cbn [posixpath.rfind length]; [lia |].
  destruct (0 <=? posixpath.rfind c r); [lia |].
  destruct (Ascii.eqb x c); lia.
Qed.

Lemma rfind_app_absent c a b :
  c ∉ b -> posixpath.rfind c (a ++ b) = posixpath.rfind c a.
Proof.
  intros Hout. induction a as [| x a IH].
  - cbn [app]. apply rfind_absent. exact Hout.
  - cbn [app posixpath.rfind]. rewrite IH. reflexivity.
Qed.

(** [splitext] of a path that ends in a dot and an extension without dot or
    slash, when the last component has something other than dots before
    that dot. *)
Lemma splitext_chars_ext p e :
  posixpath.sep ∉ e -> posixpath.extsep ∉ e ->
  existsb (fun x => negb (Ascii.eqb x posixpath.extsep))
    (drop (Z.to_nat (posixpath.rfind posixpath.sep p + 1)) p) = true ->
  posixpath.splitext_chars (p ++ posixpath.extsep :: e)
  = (p, posixpath.extsep :: e).
Proof.
  intros Hsep Hdot Hname. unfold posixpath.splitext_chars.
  rewrite (rfind_last_occurrence _ p e Hdot).
  rewrite (rfind_app_absent posixpath.sep p (posixpath.extsep :: e)).
  2:{ intros Hin. apply elem_of_cons in Hin as [Hin | Hin];
        [discriminate Hin | contradiction]. }
  pose proof (rfind_upper_bound posixpath.sep p) as Hub.
  pose proof (rfind_lower_bound posixpath.sep p) as Hlb.
  destruct (posixpath.rfind posixpath.sep p <? Z.of_nat (length p)) eqn:Hlt;
    [| apply Z.ltb_ge in Hlt; lia].
  rewrite drop_app_le by lia.
  rewrite take_app_length'
    by (rewrite length_drop; lia).
  rewrite Hname. cbn [andb].
  rewrite Nat2Z.id, take_app_length, drop_app_length. reflexivity.
Qed.

Lemma split_join dir name :
  dirlike (list_ascii_of_string dir) -> slash_free name ->
  posixpath.split (posixpath.join dir name) = (dir, name).
Proof.
  intros Hdir Hname. unfold posixpath.join, posixpath.split.
  rewrite list_ascii_of_string_of_list_ascii.
  rewrite (split_join_chars _ _ Hdir Hname).
  rewrite !string_of_list_ascii_of_string. reflexivity.
Qed.

Lemma splitext_stem stem ext :
  slash_free stem -> has_non_dot stem = true ->
  slash_free ext -> dot_free ext ->
  posixpath.splitext (stem +:+ "." +:+ ext) = (stem, "." +:+ ext).
Proof.
  intros Hstem Hnon Hext Hdot. unfold posixpath.splitext.
  rewrite chars_append.
  change (list_ascii_of_string ("." +:+ ext))
    with (posixpath.extsep :: list_ascii_of_string ext).
  rewrite splitext_chars_ext; try assumption.
  - rewrite string_of_list_ascii_of_string.
    change (posixpath.extsep :: list_ascii_of_string ext)
      with (list_ascii_of_string ("." +:+ ext)).
    rewrite string_of_list_ascii_of_string. reflexivity.
  - rewrite (rfind_absent _ _ Hstem). exact Hnon.
Qed.

(** X15: for a video [dir/stem.e], the subtitle name is [dir/stem] followed
    by the language and the format: the extension of the video is dropped,
    so that two videos of one directory that differ only in their extension
    are given the same subtitle name. *)
Theorem gen_subname_replaces_extension
    (dir stem video_ext video_ext' language ext : string) :
  dirlike (list_ascii_of_string dir) ->
  slash_free stem -> has_non_dot stem = true ->
  slash_free video_ext -> dot_free video_ext ->
  slash_free video_ext' -> dot_free video_ext' ->
  _gen_subname (posixpath.join dir (stem +:+ "." +:+ video_ext)) language ext
  = posixpath.join dir (stem +:+ "." +:+ language +:+ "." +:+ ext)
  /\ _gen_subname (posixpath.join dir (stem +:+ "." +:+ video_ext))
       language ext
     = _gen_subname (posixpath.join dir (stem +:+ "." +:+ video_ext'))
         language ext.
Proof.
  intros Hdir Hstem Hnon Hs Hd Hs' Hd'.
  assert (Hform : forall e, slash_free e -> dot_free e ->
            _gen_subname (posixpath.join dir (stem +:+ "." +:+ e))
              language ext
            = posixpath.join dir
                (stem +:+ "." +:+ language +:+ "." +:+ ext)).
  { intros e Hse Hde. rewrite gen_subname_unfold. unfold video_stem.
    rewrite split_join; [| exact Hdir |].
    - cbn [fst snd]. rewrite (splitext_stem stem e); auto.
    - apply slash_free_append; [exact Hstem |].
      apply slash_free_append; [| exact Hse].
      unfold slash_free. cbn. intros Hin.
      apply list_elem_of_singleton in Hin. discriminate Hin. }
  split; [apply Hform; assumption |].
  rewrite !Hform by assumption. reflexivity.
Qed.

Lemma gen_subname_replaces_extension_witness :
  dirlike (list_ascii_of_string "/home/u")
  /\ slash_free "movie.2019" /\ has_non_dot "movie.2019" = true
  /\ slash_free "mkv" /\ dot_free "mkv"
  /\ slash_free "avi" /\ dot_free "avi"
  /\ _gen_subname (posixpath.join "/home/u" ("movie.2019" +:+ "." +:+ "mkv"))
       "Chn" "srt"
     = posixpath.join "/home/u"
         ("movie.2019" +:+ "." +:+ "Chn" +:+ "." +:+ "srt")
  /\ _gen_subname (posixpath.join "/home/u" ("movie.2019" +:+ "." +:+ "mkv"))
       "Chn" "srt"
     = _gen_subname
         (posixpath.join "/home/u" ("movie.2019" +:+ "." +:+ "avi"))
         "Chn" "srt".
Proof.
  assert (H1 : dirlike (list_ascii_of_string "/home/u"))
    by (right; reflexivity).
  assert (H2 : slash_free "movie.2019")
    by (apply (bool_decide_unpack _); vm_compute; exact I).
  assert (H3 : has_non_dot "movie.2019" = true) by reflexivity.
  assert (H4 : slash_free "mkv")
    by (apply (bool_decide_unpack _); vm_compute; exact I).
  assert (H5 : dot_free "mkv")
    by (apply (bool_decide_unpack _); vm_compute; exact I).
  assert (H6 : slash_free "avi")
    by (apply (bool_decide_unpack _); vm_compute; exact I).
  assert (H7 : dot_free "avi")
    by (apply (bool_decide_unpack _); vm_compute; exact I).
  split; [exact H1 |]. split; [exact H2 |]. split; [exact H3 |].
  split; [exact H4 |]. split; [exact H5 |]. split; [exact H6 |].
  split; [exact H7 |].
  exact (gen_subname_replaces_extension "/home/u" "movie.2019" "mkv" "avi"
           "Chn" "srt" H1 H2 H3 H4 H5 H6 H7).
Defined.

Lemma join_chars_app root a b :
  a <> [] -> posixpath.sep ∉ a ->
  posixpath.join_chars root (a ++ b)
  = (posixpath.join_chars root a ++ b)%list.
Proof.
  intros Hne Hfree. unfold posixpath.join_chars.
  destruct a as [| x a']; [contradiction |].
  cbn [app posixpath.startswith_sep].
  destruct (Ascii.eqb_spec x posixpath.sep) as [-> | Hx].
  - exfalso. apply Hfree. left.
  - destruct (Nat.eqb (length root) 0 || posixpath.endswith_sep root);
      rewrite <- app_assoc; reflexivity.
Qed.

(** X16: the name built for a subtitle has the format as its extension:
    [os.path.splitext] takes it apart into the video's directory and base
    name with the language, and a dot followed by the format. *)
Theorem gen_subname_extension (videofile language ext : string) :
  slash_free language -> has_non_dot language = true ->
  slash_free ext -> dot_free ext ->
  posixpath.splitext (_gen_subname videofile language ext)
  = (posixpath.join (fst (posixpath.split videofile))
       (video_stem videofile +:+ "." +:+ language),
     "." +:+ ext).
Proof.
  intros Hl Hnon He Hd. rewrite gen_subname_unfold.
  unfold posixpath.splitext, posixpath.join.
  rewrite !list_ascii_of_string_of_list_ascii.
  set (root := list_ascii_of_string (fst (posixpath.split videofile))).
  set (a := list_ascii_of_string (video_stem videofile +:+ "." +:+ language)).
  assert (Hdir : dirlike root).
  { subst root. unfold posixpath.split.
    pose proof (split_chars_head_dirlike (list_ascii_of_string videofile))
      as Hdl.
    destruct (posixpath.split_chars (list_ascii_of_string videofile))
      as [head tail].
    cbn [fst] in *. rewrite list_ascii_of_string_of_list_ascii. exact Hdl. }
  assert (Ha : posixpath.sep ∉ a).
  { subst a. apply slash_free_append; [apply video_stem_slash_free |].
    apply slash_free_append; [| exact Hl].
    unfold slash_free. cbn. intros Hin.
    apply list_elem_of_singleton in Hin. discriminate Hin. }
  assert (Hane : a <> []).
  { subst a. rewrite chars_append. intros Hnil.
    apply app_eq_nil in Hnil as [_ Hnil]. discriminate Hnil. }
  replace (list_ascii_of_string
             (video_stem videofile +:+ "." +:+ language +:+ "." +:+ ext))
    with (a ++ posixpath.extsep :: list_ascii_of_string ext)%list.
  2:{ subst a. rewrite !chars_append, <- !app_assoc. reflexivity. }
  rewrite (join_chars_app root a _ Hane Ha).
  rewrite splitext_chars_ext; [| exact He | exact Hd |].
  - change (posixpath.extsep :: list_ascii_of_string ext)
      with (list_ascii_of_string ("." +:+ ext)).
    rewrite string_of_list_ascii_of_string. reflexivity.
  - pose proof (f_equal snd (split_join_chars root a Hdir Ha)) as Htail.
    unfold posixpath.split_chars in Htail. cbn [snd] in Htail.
    rewrite Htail.
    subst a. rewrite !chars_append, !existsb_app.
    unfold has_non_dot in Hnon. rewrite Hnon.
    rewrite !orb_true_r. reflexivity.
Qed.

Lemma gen_subname_extension_witness :
  slash_free "Chn" /\ has_non_dot "Chn" = true
  /\ slash_free "srt" /\ dot_free "srt"
  /\ posixpath.splitext (_gen_subname "/v/movie.mkv" "Chn" "srt")
     = (posixpath.join (fst (posixpath.split "/v/movie.mkv"))
          (video_stem "/v/movie.mkv" +:+ "." +:+ "Chn"),
        "." +:+ "srt").
Proof.
  assert (H1 : slash_free "Chn")
    by (apply (bool_decide_unpack _); vm_compute; exact I).
  assert (H2 : has_non_dot "Chn" = true) by reflexivity.
  assert (H3 : slash_free "srt")
    by (apply (bool_decide_unpack _); vm_compute; exact I).
  assert (H4 : dot_free "srt")
    by (apply (bool_decide_unpack _); vm_compute; exact I).
  split; [exact H1 |]. split; [exact H2 |]. split; [exact H3 |].
  split; [exact H4 |].
  exact (gen_subname_extension "/v/movie.mkv" "Chn" "srt" H1 H2 H3 H4).
Defined.
